(** * Allwinner H6 thermal sensor driver (drivers/thermal/sun50i_h6_ths.c)

    A shallow embedding of the driver's temperature conversion, its
    temperature query callback, its threaded interrupt handler, its factory
    calibration routine and the calibration step of its probe function,
    together with the properties of the specification that concern them.

    C integers are modelled as [Z] with every conversion and wrap-around
    written out; the register block, the sensor array and the observable
    actions of the driver (register accesses, notifications, warnings,
    buffer release) are threaded through a small state-and-failure monad. *)

From Stdlib Require Import ZArith Lia List Bool.
From stdpp Require Import base numbers option list gmap.

Local Open Scope Z_scope.

(** ** Fixed-width integer conversions *)

Module CInt.

(** Conversion to [u32], [u16] (reduction modulo the width). *)
Definition to_u32 (x : Z) : Z := x mod 2 ^ 32.
Definition to_u16 (x : Z) : Z := x mod 2 ^ 16.

(** Conversion to [int] and to [s16] (two's complement). *)
Definition to_s32 (x : Z) : Z :=
  let y := x mod 2 ^ 32 in if y <? 2 ^ 31 then y else y - 2 ^ 32.
Definition to_s16 (x : Z) : Z :=
  let y := x mod 2 ^ 16 in if y <? 2 ^ 15 then y else y - 2 ^ 16.

(** Conversion of an [int] to [size_t] on a 64-bit kernel. *)
Definition to_size_t (x : Z) : Z := x mod 2 ^ 64.

(** [BIT(n)] of include/linux/bits.h. *)
Definition BIT (n : Z) : Z := Z.shiftl 1 n.

End CInt.
Import CInt.

(** ** Temperature conversion *)

(** [static int sun50i_h6_ths_calc_temp(u32 val)]:
    [return (187744 - (int)((val * 1000000) / 14882));]
    The product and the quotient are computed in [u32]; the quotient is
    converted to [int] before the subtraction. *)
Definition sun50i_h6_ths_calc_temp (val : Z) : Z :=
  187744 - to_s32 (to_u32 (val * 1000000) / 14882).

(** [static u16 sun50i_h6_ths_recalc_reg(u32 temp)]:
    [return (u16)(2794 - temp * 14882 / 1000000);]
    All of the arithmetic is [u32]; the result is truncated to 16 bits. *)
Definition sun50i_h6_ths_recalc_reg (temp : Z) : Z :=
  to_u16 (to_u32 (2794 - to_u32 (temp * 14882) / 1000000)).

(** The linear formula of the specification, over the integers with
    flooring division and no wrap-around. *)
Definition linear_formula (raw : Z) : Z := 187744 - raw * 1000000 / 14882.

(** The largest raw value whose product with 1000000 fits in 32 bits. *)
Definition calc_temp_max_exact : Z := 4294.

(** ** Register layout and constants *)

Definition THS_H6_MAX_SENSOR_NUM : Z := 4.

Definition THS_H6_DATA_INT_STAT : Z := 0x20.
Definition THS_H6_CDATA (n : Z) : Z := 0xa0 + 4 * n.
Definition THS_H6_DATA (n : Z) : Z := 0xc0 + 4 * n.

Definition THS_H6_STAT_DATA_IRQ_STS (n : Z) : Z := BIT (0 + n).

Definition THS_H6_CAL_FT_TEMP_MASK : Z := 0x0fff.
Definition THS_H6_CAL_DEFAULT : Z := 0x800.
Definition THS_H6_CAL_VAL_MASK : Z := 0xfff.

(** Modelled from the spec: the error numbers and the interrupt return code
    are declared in kernel headers that are not part of the driver file
    (errno-base.h, irqreturn.h); the specification calls them [Busy],
    [InvalidData] and "handled".  The values are the kernel's. *)
Definition EBUSY : Z := 16.
Definition EINVAL : Z := 22.
Definition IRQ_HANDLED : Z := 1.

(** ** Data model *)

(** [struct sun50i_h6_ths_sensor].  The back pointer [data] is implicit: a
    sensor is always reached through the [sensors] array of its device. *)
Record sun50i_h6_ths_sensor : Type := mk_sensor {
  id : Z;
  tzd : Z;   (* handle of the thermal zone the sensor feeds *)
  val : Z    (* last raw sample, [u32] *)
}.

(** [struct sun50i_h6_ths_cfg]. *)
Record sun50i_h6_ths_cfg : Type := mk_cfg {
  sensor_num : Z;
  calc_temp : Z -> Z
}.

(** The content of the calibration cell as [nvmem_cell_read] hands it out:
    an error pointer, or a freshly allocated byte buffer whose length is
    [callen]. *)
Inductive nvmem_cell : Type :=
| CellError (err : Z)
| CellData (bytes : list Byte.byte).

(** [struct sun50i_h6_ths_data], without the clock and reset handles, which
    none of the functions below touches.  The register block behind [regs]
    is part of the machine state. *)
Record sun50i_h6_ths_data : Type := mk_data {
  cfg : sun50i_h6_ths_cfg;
  calcell : nvmem_cell;
  sensors : list sun50i_h6_ths_sensor
}.

(** The only configuration of the match table. *)
Definition h6_cfg : sun50i_h6_ths_cfg :=
  {| sensor_num := 2; calc_temp := sun50i_h6_ths_calc_temp |}.

(** What the driver does to the outside world, in program order. *)
Inductive event : Type :=
| EvReadl (off : Z)             (* readl(regs + off) *)
| EvWritel (v off : Z)          (* writel(v, regs + off) *)
| EvWritew (v off : Z)          (* writew(v, regs + off) *)
| EvTzUpdate (zone : Z)         (* thermal_zone_device_update(zone, TEMP_SAMPLE) *)
| EvWarn (i : Z)                (* pr_warn("Faulty thermal sensor %d ...", i) *)
| EvNvmemRead                   (* nvmem_cell_read returned a new buffer *)
| EvKfree.                      (* kfree(caldata) *)

Record machine : Type := mk_machine {
  m_data : sun50i_h6_ths_data;
  m_regs : gmap Z Z;            (* register block, by byte offset *)
  m_trace : list event
}.

(** ** State-and-failure monad

    [None] stands for undefined behaviour of the C program (an access
    outside the sensor array or outside the calibration buffer). *)

Definition M (A : Type) : Type := machine -> option (A * machine).

Definition ret {A} (a : A) : M A := fun m => Some (a, m).

Definition bind {A B} (c : M A) (k : A -> M B) : M B :=
  fun m => match c m with
           | Some (a, m') => k a m'
           | None => None
           end.

Notation "'let*' x ':=' c 'in' k" := (bind c (fun x => k))
  (at level 10, x name, c at level 100, k at level 200).
Notation "c ';;' k" := (bind c (fun _ => k))
  (at level 100, k at level 200, right associativity).

Definition get_data : M sun50i_h6_ths_data := fun m => Some (m_data m, m).

Definition lift {A} (o : option A) : M A :=
  fun m => match o with Some a => Some (a, m) | None => None end.

(** The machine after one more observable action. *)
Definition log (m : machine) (e : event) : machine :=
  {| m_data := m_data m; m_regs := m_regs m; m_trace := m_trace m ++ [e] |}.

Definition emit (e : event) : M unit := fun m => Some (tt, log m e).

Definition set_regs (r : gmap Z Z) : M unit :=
  fun m => Some (tt, {| m_data := m_data m; m_regs := r; m_trace := m_trace m |}).

(** ** The register block *)

(** Content of the 32-bit register at [off]; a register never written
    reads as zero. *)
Definition reg_value (r : gmap Z Z) (off : Z) : Z := default 0 (r !! off).

(** Modelled from the spec: the behaviour of the hardware behind the
    register interface for 32-bit accesses.  The interrupt status register
    is write-1-to-clear; every other register keeps what is stored; loads
    have no side effect, and nothing but the driver changes a register
    while a function runs. *)
Definition hw_writel (r : gmap Z Z) (v off : Z) : gmap Z Z :=
  if off =? THS_H6_DATA_INT_STAT
  then <[off := Z.ldiff (reg_value r off) (to_u32 v)]> r
  else <[off := to_u32 v]> r.

(** The effect of a 16-bit store of [v] at offset [off] on the register
    block.  The kernel's [writew] is not among the sources of the driver,
    and the specification has no sentence on 16-bit stores, so the code
    that makes one takes the effect as a parameter of this type. *)
Definition store16 : Type := gmap Z Z -> Z -> Z -> gmap Z Z.

(** An assumption on the bus, stated neither by the source nor by the
    specification: a 16-bit store at a word-aligned offset replaces the
    low half of the little-endian 32-bit register and leaves its upper
    half.  The driver as a whole is run at this instance; a result that
    depends on what a 16-bit store leaves takes the rule as a hypothesis
    instead ([store16_lanes]). *)
Definition hw_writew : store16 :=
  fun r v off =>
    <[off := Z.lor (Z.land (reg_value r off) 0xffff0000) (to_u16 v)]> r.


Definition readl (off : Z) : M Z :=
  fun m => (emit (EvReadl off) ;; ret (reg_value (m_regs m) off)) m.

Definition writel (v off : Z) : M unit :=
  fun m => (emit (EvWritel v off) ;; set_regs (hw_writel (m_regs m) v off)) m.

Definition writew (hw : store16) (v off : Z) : M unit :=
  fun m => (emit (EvWritew v off) ;; set_regs (hw (m_regs m) v off)) m.

(** ** The sensor array *)

Definition sensor_at (l : list sun50i_h6_ths_sensor) (i : Z)
  : option sun50i_h6_ths_sensor :=
  if 0 <=? i then l !! Z.to_nat i else None.

(** [data->sensors[i]] as an rvalue. *)
Definition get_sensor (i : Z) : M sun50i_h6_ths_sensor :=
  fun m => lift (sensor_at (sensors (m_data m)) i) m.

(** A sensor entry with its raw sample replaced. *)
Definition latch (s : sun50i_h6_ths_sensor) (v : Z) : sun50i_h6_ths_sensor :=
  {| id := id s; tzd := tzd s; val := v |}.

(** [data->sensors[i].val = v]. *)
Definition set_sensor_val (i v : Z) : M unit :=
  fun m =>
    match sensor_at (sensors (m_data m)) i with
    | Some s =>
        let s' := latch s v in
        let d := m_data m in
        Some (tt, {| m_data := {| cfg := cfg d; calcell := calcell d;
                                  sensors := <[Z.to_nat i := s']> (sensors d) |};
                     m_regs := m_regs m; m_trace := m_trace m |})
    | None => None
    end.

(** ** Loops

    [for (i = i0; i < n; i += step) body(i)], with [continue] rendered as
    an early return of the body.  The recursion is on a bound of the number
    of iterations; [for_loop_fuel] shows that any bound of at least
    [n - i0] gives the same run when [step] is positive. *)
Fixpoint for_loop (fuel : nat) (i n step : Z) (body : Z -> M unit) : M unit :=
  match fuel with
  | O => ret tt
  | S fuel' =>
      if i <? n then (body i ;; for_loop fuel' (i + step) n step body)
      else ret tt
  end.

(** ** Temperature query *)

(** [static int sun50i_h6_ths_get_temp(void *_data, int *out)].  The sensor
    pointer is the index of the sensor in its device; the result is the
    return value together with the content of [*out] after the call. *)
Definition sun50i_h6_ths_get_temp (sensor : Z) (out : Z) : M (Z * Z) :=
  let* s := get_sensor sensor in
  if val s =? 0 then ret (- EBUSY, out)
  else
    let* d := get_data in
    ret (0, calc_temp (cfg d) (val s)).

(** ** Threaded interrupt handler *)

Definition thermal_zone_device_update (zone : Z) : M unit :=
  emit (EvTzUpdate zone).

(** Body of the loop of [sun50i_h6_ths_irq_thread]. *)
Definition irq_thread_body (i : Z) : M unit :=
  let* stat := readl THS_H6_DATA_INT_STAT in
  if Z.land stat (THS_H6_STAT_DATA_IRQ_STS i) =? 0 then ret tt
  else
    writel (THS_H6_STAT_DATA_IRQ_STS i) THS_H6_DATA_INT_STAT ;;
    let* v := readl (THS_H6_DATA i) in
    set_sensor_val i v ;;
    let* s := get_sensor i in
    if val s =? 0 then ret tt
    else thermal_zone_device_update (tzd s).

(** [static irqreturn_t sun50i_h6_ths_irq_thread(int irq, void *_data)]. *)
Definition sun50i_h6_ths_irq_thread (irq : Z) : M Z :=
  let* d := get_data in
  let n := sensor_num (cfg d) in
  for_loop (Z.to_nat n) 0 n 1 irq_thread_body ;;
  ret IRQ_HANDLED.

(** ** Calibration *)

Definition byte_val (b : Byte.byte) : Z := Z.of_N (Byte.to_N b).

(** [caldata[k]] for [u16 *caldata] over a little-endian byte buffer. *)
Definition caldata_word (buf : list Byte.byte) (k : Z) : option Z :=
  if 0 <=? k then
    match buf !! Z.to_nat (2 * k), buf !! Z.to_nat (2 * k + 1) with
    | Some lo, Some hi => Some (byte_val lo + 256 * byte_val hi)
    | _, _ => None
    end
  else None.

Definition nvmem_cell_read : M nvmem_cell :=
  let* d := get_data in
  match calcell d with
  | CellError err => ret (CellError err)
  | CellData bytes => emit EvNvmemRead ;; ret (CellData bytes)
  end.

Definition kfree : M unit := emit EvKfree.

Definition pr_warn (i : Z) : M unit := emit (EvWarn i).

(** The value [cal_val] that the loop of [sun50i_h6_ths_calibrate] derives
    for a stored word, with the [s16] truncation of both assignments. *)
Definition derive_cal_val (ft_temp_orig_reg w : Z) : Z :=
  let diff := to_s16 (ft_temp_orig_reg - to_s16 w) in
  to_s16 (THS_H6_CAL_DEFAULT - diff).

(** Body of the loop of [sun50i_h6_ths_calibrate]. *)
Definition calibrate_body (caldata : list Byte.byte) (ft_temp_orig_reg : Z)
    (i : Z) : M unit :=
  let* w := lift (caldata_word caldata (1 + i)) in
  let cal_val := derive_cal_val ft_temp_orig_reg w in
  if negb (Z.land cal_val (Z.lnot THS_H6_CAL_VAL_MASK) =? 0) then
    pr_warn i
  else if negb (Z.rem i 2 =? 0) then
    let* reg_val := readl (THS_H6_CDATA (Z.quot i 2)) in
    let reg_val := Z.land reg_val 0xffff in
    let reg_val := Z.lor reg_val (to_u32 (Z.shiftl cal_val 16)) in
    writel reg_val (THS_H6_CDATA (Z.quot i 2))
  else
    writel cal_val (THS_H6_CDATA (Z.quot i 2)).

(** [ft_temp] and [ft_temp_orig_reg] from the first word of the buffer. *)
Definition ft_temp_of (w0 : Z) : Z := Z.land w0 THS_H6_CAL_FT_TEMP_MASK * 100.

Definition ft_temp_orig_reg_of (w0 : Z) : Z :=
  to_s16 (sun50i_h6_ths_recalc_reg (to_u32 (ft_temp_of w0))).

(** [static int sun50i_h6_ths_calibrate(struct sun50i_h6_ths_data *data)]. *)
Definition sun50i_h6_ths_calibrate : M Z :=
  let* d := get_data in
  let* r := nvmem_cell_read in
  match r with
  | CellError err => ret err
  | CellData caldata =>
      let callen := Z.of_nat (length caldata) in
      let n := sensor_num (cfg d) in
      if callen <? to_size_t (2 + 2 * n) then ret (- EINVAL)
      else
        let* w0 := lift (caldata_word caldata 0) in
        if w0 =? 0 then ret (- EINVAL)
        else
          for_loop (Z.to_nat n) 0 n 1
            (calibrate_body caldata (ft_temp_orig_reg_of w0)) ;;
          kfree ;;
          ret 0
  end.

(** The calibration step of [sun50i_h6_ths_probe], taken when the
    calibration cell was obtained: run the calibration and, when it
    fails, the loop under the comment "Revert calibrating".  [hw] is the
    effect of the 16-bit stores of that loop. *)
Definition sun50i_h6_ths_probe_calibrate (hw : store16) : M Z :=
  let* r := sun50i_h6_ths_calibrate in
  if negb (r =? 0) then
    let* d := get_data in
    let n := sensor_num (cfg d) in
    for_loop (Z.to_nat n) 0 n 2
      (fun i => writew hw THS_H6_CAL_DEFAULT (THS_H6_CDATA (Z.quot i 2))) ;;
    ret r
  else ret r.

(** The 16-bit stores of the revert loop for [n] sensors, in order: one
    store of the default value per calibration register. *)
Definition revert_stores (n : Z) : list Z :=
  map THS_H6_CDATA (seqZ 0 ((n + 1) / 2)).

(** ** Observations on a machine state *)

(** The 16-bit calibration field of sensor [i]: the low half of register
    [CDATA(i / 2)] for an even [i], the high half for an odd one. *)
Definition cal_field (r : gmap Z Z) (i : Z) : Z :=
  let w := reg_value r (THS_H6_CDATA (i / 2)) in
  if i mod 2 =? 0 then Z.land w 0xffff else Z.land (Z.shiftr w 16) 0xffff.

(** Data-ready status of sensor [i]. *)
Definition irq_pending (r : gmap Z Z) (i : Z) : bool :=
  Z.testbit (reg_value r THS_H6_DATA_INT_STAT) i.

(** Initial machine of a device. *)
Definition boot (d : sun50i_h6_ths_data) (r : gmap Z Z) : machine :=
  {| m_data := d; m_regs := r; m_trace := [] |}.

(** A device as the driver allocates it: four sensor entries, of which the
    configuration uses the first [sensor_num]. *)
Definition wf_machine (m : machine) : Prop :=
  0 <= sensor_num (cfg (m_data m)) <= THS_H6_MAX_SENSOR_NUM /\
  Z.of_nat (length (sensors (m_data m))) = THS_H6_MAX_SENSOR_NUM.

(** The interrupt drain in the words of the specification: what the handler
    does for sensor [i] of a machine [m] that it finds at entry.  It looks
    at the status; for a pending sensor it clears the status bit, then
    reads the data register, and notifies the thermal zone of the sensor
    when the value read is not zero. *)
Definition irq_events_spec (m : machine) (i : Z) : list event :=
  EvReadl THS_H6_DATA_INT_STAT ::
  (if irq_pending (m_regs m) i then
     [EvWritel (THS_H6_STAT_DATA_IRQ_STS i) THS_H6_DATA_INT_STAT;
      EvReadl (THS_H6_DATA i)] ++
     (if reg_value (m_regs m) (THS_H6_DATA i) =? 0 then []
      else match sensor_at (sensors (m_data m)) i with
           | Some s => [EvTzUpdate (tzd s)]
           | None => []
           end)
   else []).

(** Loop invariant of the interrupt handler: [m] is what the handler has
    made of the machine [m0] it was entered with once the sensors below
    [k] are done. *)
Record irq_inv (m0 : machine) (k : Z) (m : machine) : Prop := mk_irq_inv {
  inv_trace : m_trace m = m_trace m0 ++ flat_map (irq_events_spec m0) (seqZ 0 k);
  inv_regs : forall off, off <> THS_H6_DATA_INT_STAT -> m_regs m !! off = m_regs m0 !! off;
  inv_pending : forall j, 0 <= j ->
     irq_pending (m_regs m) j = irq_pending (m_regs m0) j && negb (j <? k);
  inv_cfg : cfg (m_data m) = cfg (m_data m0);
  inv_cell : calcell (m_data m) = calcell (m_data m0);
  inv_length : length (sensors (m_data m)) = length (sensors (m_data m0));
  inv_sensors : forall j s, sensor_at (sensors (m_data m0)) j = Some s ->
     sensor_at (sensors (m_data m)) j =
       Some (if (j <? k) && irq_pending (m_regs m0) j
             then latch s (reg_value (m_regs m0) (THS_H6_DATA j)) else s)
}.

(** A device with two pending sensors, of which the second one delivers a
    zero sample. *)
Definition demo_machine : machine :=
  boot {| cfg := h6_cfg; calcell := CellError (-2);
          sensors := [mk_sensor 0 10 0; mk_sensor 1 11 7;
                      mk_sensor 2 12 0; mk_sensor 3 13 0] |}
       (<[THS_H6_DATA_INT_STAT := 3]> (<[THS_H6_DATA 0 := 2414]> ∅)).

(** An H6 device about to be calibrated: the calibration cell holds
    [bytes] and the calibration register of the sensor pair holds
    [cdata0]. *)
Definition cal_machine (bytes : list Byte.byte) (cdata0 : Z) : machine :=
  boot {| cfg := h6_cfg; calcell := CellData bytes;
          sensors := [mk_sensor 0 10 0; mk_sensor 1 11 0;
                      mk_sensor 2 12 0; mk_sensor 3 13 0] |}
       {[ THS_H6_CDATA 0 := cdata0 ]}.

(** What a run on an H6 device lets one see: the return value, the
    actions, and the content of the calibration register of the sensor
    pair with the two calibration fields in it. *)
Record observation : Type := mk_observation {
  o_ret : Z;
  o_trace : list event;
  o_cdata0 : Z;
  o_field0 : Z;
  o_field1 : Z
}.

Definition observe (r : option (Z * machine)) : option observation :=
  match r with
  | Some (a, m) =>
      Some {| o_ret := a; o_trace := m_trace m;
              o_cdata0 := reg_value (m_regs m) (THS_H6_CDATA 0);
              o_field0 := cal_field (m_regs m) 0;
              o_field1 := cal_field (m_regs m) 1 |}
  | None => None
  end.

(** The range check of the calibration loop, [!(cal_val & ~MASK)]. *)
Definition cal_valid (c : Z) : bool :=
  Z.land c (Z.lnot THS_H6_CAL_VAL_MASK) =? 0.

(** The machine after one iteration of the calibration loop for the stored
    word [w] of sensor [i]; [calibrate_body_run] shows that this is what
    [calibrate_body] computes. *)
Definition calibrate_step (ft_temp_orig_reg w i : Z) (m : machine) : machine :=
  let c := derive_cal_val ft_temp_orig_reg w in
  let off := THS_H6_CDATA (Z.quot i 2) in
  if cal_valid c then
    if Z.rem i 2 =? 0 then
      {| m_data := m_data m; m_regs := hw_writel (m_regs m) c off;
         m_trace := m_trace m ++ [EvWritel c off] |}
    else
      let v := Z.lor (Z.land (reg_value (m_regs m) off) 0xffff)
                     (to_u32 (Z.shiftl c 16)) in
      {| m_data := m_data m; m_regs := hw_writel (m_regs m) v off;
         m_trace := m_trace m ++ [EvReadl off; EvWritel v off] |}
  else log m (EvWarn i).

(** ** Hardware initialisation *)

Definition THS_H6_CTRL0 : Z := 0x00.
Definition THS_H6_CTRL2 : Z := 0x04.
Definition THS_H6_PER : Z := 0x08.
Definition THS_H6_DATA_INT_CTRL : Z := 0x10.
Definition THS_H6_FILTER : Z := 0x30.

Definition THS_H6_CTRL0_SENSOR_ACQ0 (x : Z) : Z := Z.shiftl x 16.
Definition THS_H6_CTRL2_SENSE_EN (n : Z) : Z := BIT (0 + n).
Definition THS_H6_PER_THERMAL_PER (x : Z) : Z := Z.shiftl x 12.
Definition THS_H6_INT_CTRL_DATA_IRQ_EN (n : Z) : Z := BIT (0 + n).
Definition THS_H6_FILTER_TYPE (x : Z) : Z := Z.shiftl x 0.
Definition THS_H6_FILTER_EN : Z := BIT 2.

Definition THS_H6_CLK_IN : Z := 240000000.
Definition THS_H6_DATA_PERIOD : Z := 10.

Definition THS_H6_FILTER_TYPE_VALUE : Z := 2.
Definition THS_H6_FILTER_DIV : Z := Z.shiftl 1 (THS_H6_FILTER_TYPE_VALUE + 1).
Definition THS_H6_INT_CTRL_THERMAL_PER_VALUE : Z :=
  Z.quot (Z.quot (THS_H6_DATA_PERIOD * Z.quot THS_H6_CLK_IN 1000)
                 THS_H6_FILTER_DIV) 4096 - 1.
Definition THS_H6_CTRL0_SENSOR_ACQ0_VALUE : Z := 0x1df.
Definition THS_H6_CTRL0_UNK : Z := 0x0000002f.

(** [v = 0; for (i = i0; i < n; i++) v |= bit(i);] on a [u32] variable. *)
Fixpoint or_loop (fuel : nat) (i n : Z) (bit : Z -> Z) (v : Z) : Z :=
  match fuel with
  | O => v
  | S fuel' =>
      if i <? n then or_loop fuel' (i + 1) n bit (to_u32 (Z.lor v (bit i)))
      else v
  end.

(** [static void sun50i_h6_ths_init(struct sun50i_h6_ths_data *data)]. *)
Definition sun50i_h6_ths_init : M unit :=
  let* d := get_data in
  let n := sensor_num (cfg d) in
  writel (Z.lor (THS_H6_CTRL0_SENSOR_ACQ0 THS_H6_CTRL0_SENSOR_ACQ0_VALUE)
                THS_H6_CTRL0_UNK) THS_H6_CTRL0 ;;
  writel (Z.lor THS_H6_FILTER_EN (THS_H6_FILTER_TYPE THS_H6_FILTER_TYPE_VALUE))
         THS_H6_FILTER ;;
  writel (or_loop (Z.to_nat n) 0 n THS_H6_CTRL2_SENSE_EN 0) THS_H6_CTRL2 ;;
  writel (THS_H6_PER_THERMAL_PER THS_H6_INT_CTRL_THERMAL_PER_VALUE) THS_H6_PER ;;
  writel (or_loop (Z.to_nat n) 0 n THS_H6_INT_CTRL_DATA_IRQ_EN 0)
         THS_H6_DATA_INT_CTRL.

(** ** Probe and remove *)

(** Modelled from the spec: further error numbers of the kernel headers. *)
Definition ENOMEM : Z := 12.
Definition EPROBE_DEFER : Z := 517.

(** What the kernel services that [sun50i_h6_ths_probe] calls answer.  A
    service that returns a pointer answers [Some e] (or [inl e]) for
    [ERR_PTR(e)]. *)
Record platform : Type := mk_platform {
  pf_kzalloc : bool;                          (* devm_kzalloc gave memory *)
  pf_match_data : option sun50i_h6_ths_cfg;   (* of_device_get_match_data *)
  pf_mem_resource : bool;                     (* platform_get_resource gave one *)
  pf_ioremap : option Z;                      (* devm_ioremap_resource *)
  pf_irq : Z;                                 (* platform_get_irq *)
  pf_request_irq : Z;                         (* devm_request_threaded_irq *)
  pf_clk_get : option Z;                      (* devm_clk_get *)
  pf_reset_get : option Z;                    (* devm_reset_control_get *)
  pf_reset_deassert : Z;                      (* reset_control_deassert *)
  pf_clk_prepare_enable : Z;                  (* clk_prepare_enable *)
  pf_nvmem_cell_get : Z + nvmem_cell;         (* devm_nvmem_cell_get *)
  pf_tz_register : Z -> Z + Z                 (* devm_thermal_zone_of_sensor_register,
                                                 by sensor id: error or zone *)
}.

(** The [dev_err] messages of probe. *)
Inductive dev_err_msg : Type :=
| MsgNoMemoryResources
| MsgIoremap (ret : Z)
| MsgGetIrq (irq : Z)
| MsgGetClk (ret : Z)
| MsgGetReset (ret : Z)
| MsgResetDeassert (ret : Z)
| MsgEnableBusClk (ret : Z)
| MsgRegisterZone (i ret : Z).

(** The calls probe and remove make to the kernel, in program order, with
    the answer where it decides whether a resource is held afterwards. *)
Inductive pcall : Type :=
| CallKzalloc
| CallGetMatchData
| CallGetResource
| CallIoremapResource
| CallGetIrq
| CallRequestThreadedIrq (irq : Z)
| CallClkGet
| CallResetControlGet
| CallResetDeassert (ret : Z)
| CallClkPrepareEnable (ret : Z)
| CallNvmemCellGet
| CallTzRegister (i : Z)
| CallSetDrvdata
| CallClkDisableUnprepare
| CallResetAssert
| CallDevErr (msg : dev_err_msg).

Record pstate : Type := mk_pstate {
  ps_machine : machine;
  ps_calls : list pcall;
  ps_drvdata : bool             (* platform_set_drvdata has been called *)
}.

Definition P (A : Type) : Type := pstate -> option (A * pstate).

Definition pret {A} (a : A) : P A := fun ps => Some (a, ps).

Definition pbind {A B} (c : P A) (k : A -> P B) : P B :=
  fun ps => match c ps with
            | Some (a, ps') => k a ps'
            | None => None
            end.

Notation "'do*' x ':=' c 'in' k" := (pbind c (fun x => k))
  (at level 10, x name, c at level 100, k at level 200).
Notation "c ';>' k" := (pbind c (fun _ => k))
  (at level 100, k at level 200, right associativity).

(** A driver function run from probe. *)
Definition liftM {A} (c : M A) : P A :=
  fun ps => match c (ps_machine ps) with
            | Some (a, m') =>
                Some (a, {| ps_machine := m'; ps_calls := ps_calls ps;
                            ps_drvdata := ps_drvdata ps |})
            | None => None
            end.

Definition call (c : pcall) : P unit :=
  fun ps => Some (tt, {| ps_machine := ps_machine ps;
                         ps_calls := ps_calls ps ++ [c];
                         ps_drvdata := ps_drvdata ps |}).

Definition dev_err (msg : dev_err_msg) : P unit := call (CallDevErr msg).

Definition platform_set_drvdata : P unit :=
  fun ps => Some (tt, {| ps_machine := ps_machine ps;
                         ps_calls := ps_calls ps ++ [CallSetDrvdata];
                         ps_drvdata := true |}).

(** The device context as [devm_kzalloc] hands it out: all fields zero. *)
Definition null_cfg : sun50i_h6_ths_cfg :=
  {| sensor_num := 0; calc_temp := fun _ => 0 |}.

Definition zeroed_data : sun50i_h6_ths_data :=
  {| cfg := null_cfg; calcell := CellError 0;
     sensors := replicate (Z.to_nat THS_H6_MAX_SENSOR_NUM) (mk_sensor 0 0 0) |}.

Definition set_data (d : sun50i_h6_ths_data) : M unit :=
  fun m => Some (tt, {| m_data := d; m_regs := m_regs m; m_trace := m_trace m |}).

(** [data->cfg = c]. *)
Definition set_cfg (c : sun50i_h6_ths_cfg) : M unit :=
  let* d := get_data in
  set_data {| cfg := c; calcell := calcell d; sensors := sensors d |}.

(** [data->calcell = c]. *)
Definition set_calcell (c : nvmem_cell) : M unit :=
  let* d := get_data in
  set_data {| cfg := cfg d; calcell := c; sensors := sensors d |}.

(** [data->sensors[i].id = i; data->sensors[i].tzd = zone;]. *)
Definition set_sensor_zone (i zone : Z) : M unit :=
  let* s := get_sensor i in
  let* d := get_data in
  set_data {| cfg := cfg d; calcell := calcell d;
              sensors := <[Z.to_nat i := {| id := i; tzd := zone; val := val s |}]>
                           (sensors d) |}.

(** The labels [err_assert_reset] and [err_disable_bus] of probe. *)
Definition err_assert_reset (ret : Z) : P Z :=
  call CallResetAssert ;> pret ret.

Definition err_disable_bus (ret : Z) : P Z :=
  call CallClkDisableUnprepare ;> err_assert_reset ret.

(** The loop of probe that registers the thermal zones; [Some ret] is the
    [goto err_disable_bus] with [ret] set. *)
Fixpoint probe_register_zones (pf : platform) (fuel : nat) (i n : Z)
  : P (option Z) :=
  match fuel with
  | O => pret None
  | S fuel' =>
      if i <? n then
        call (CallTzRegister i) ;>
        match pf_tz_register pf i with
        | inl e =>
            liftM (set_sensor_zone i e) ;>
            dev_err (MsgRegisterZone i e) ;>
            pret (Some e)
        | inr zone =>
            liftM (set_sensor_zone i zone) ;>
            probe_register_zones pf fuel' (i + 1) n
        end
      else pret None
  end.

(** Probe from the lookup of the calibration cell on, with bus clock
    enabled and reset deasserted. *)
Definition probe_calibrate_and_register (pf : platform) : P Z :=
  call CallNvmemCellGet ;>
  do* deferred :=
    match pf_nvmem_cell_get pf with
    | inl e =>
        liftM (set_calcell (CellError e)) ;>
        pret (e =? - EPROBE_DEFER)
    | inr cell =>
        liftM (set_calcell cell) ;>
        liftM (sun50i_h6_ths_probe_calibrate hw_writew) ;>
        pret false
    end in
  if deferred : bool then err_disable_bus (- EPROBE_DEFER)
  else
    do* d := liftM get_data in
    let n := sensor_num (cfg d) in
    do* failed := probe_register_zones pf (Z.to_nat n) 0 n in
    match failed with
    | Some ret => err_disable_bus ret
    | None =>
        liftM sun50i_h6_ths_init ;>
        platform_set_drvdata ;>
        pret 0
    end.

(** [static int sun50i_h6_ths_probe(struct platform_device *pdev)]. *)
Definition sun50i_h6_ths_probe (pf : platform) : P Z :=
  call CallKzalloc ;>
  if negb (pf_kzalloc pf) then pret (- ENOMEM)
  else
    liftM (set_data zeroed_data) ;>
    call CallGetMatchData ;>
    match pf_match_data pf with
    | None => pret (- EINVAL)
    | Some c =>
    liftM (set_cfg c) ;>
    call CallGetResource ;>
    if negb (pf_mem_resource pf) then
      dev_err MsgNoMemoryResources ;> pret (- EINVAL)
    else
    call CallIoremapResource ;>
    match pf_ioremap pf with
    | Some ret => dev_err (MsgIoremap ret) ;> pret ret
    | None =>
    call CallGetIrq ;>
    if pf_irq pf <? 0 then dev_err (MsgGetIrq (pf_irq pf)) ;> pret (pf_irq pf)
    else
    call (CallRequestThreadedIrq (pf_irq pf)) ;>
    if negb (pf_request_irq pf =? 0) then pret (pf_request_irq pf)
    else
    call CallClkGet ;>
    match pf_clk_get pf with
    | Some ret => dev_err (MsgGetClk ret) ;> pret ret
    | None =>
    call CallResetControlGet ;>
    match pf_reset_get pf with
    | Some ret => dev_err (MsgGetReset ret) ;> pret ret
    | None =>
    call (CallResetDeassert (pf_reset_deassert pf)) ;>
    if negb (pf_reset_deassert pf =? 0) then
      dev_err (MsgResetDeassert (pf_reset_deassert pf)) ;>
      pret (pf_reset_deassert pf)
    else
    call (CallClkPrepareEnable (pf_clk_prepare_enable pf)) ;>
    if negb (pf_clk_prepare_enable pf =? 0) then
      dev_err (MsgEnableBusClk (pf_clk_prepare_enable pf)) ;>
      err_assert_reset (pf_clk_prepare_enable pf)
    else probe_calibrate_and_register pf
    end end end end.

(** [static int sun50i_h6_ths_remove(struct platform_device *pdev)].  The
    device context is the one probe published; without it the function
    dereferences a null pointer. *)
Definition sun50i_h6_ths_remove : P Z :=
  fun ps =>
    if ps_drvdata ps then
      (call CallResetAssert ;> call CallClkDisableUnprepare ;> pret 0) ps
    else None.

(** Resources held according to a sequence of calls: the number of
    successful [clk_prepare_enable] less the number of
    [clk_disable_unprepare], and the same for the reset line. *)
Fixpoint clk_held (calls : list pcall) : Z :=
  match calls with
  | [] => 0
  | CallClkPrepareEnable ret :: rest =>
      (if ret =? 0 then 1 else 0) + clk_held rest
  | CallClkDisableUnprepare :: rest => clk_held rest - 1
  | _ :: rest => clk_held rest
  end.

Fixpoint reset_held (calls : list pcall) : Z :=
  match calls with
  | [] => 0
  | CallResetDeassert ret :: rest =>
      (if ret =? 0 then 1 else 0) + reset_held rest
  | CallResetAssert :: rest => reset_held rest - 1
  | _ :: rest => reset_held rest
  end.

(** A platform whose error pointers carry error numbers ([IS_ERR] holds for
    -4095 .. -1) and whose match data fits the sensor array. *)
Definition is_errno (e : Z) : Prop := - 4095 <= e <= -1.

Definition platform_wf (pf : platform) : Prop :=
  (forall e, pf_ioremap pf = Some e -> is_errno e) /\
  (forall e, pf_clk_get pf = Some e -> is_errno e) /\
  (forall e, pf_reset_get pf = Some e -> is_errno e) /\
  (forall e, pf_nvmem_cell_get pf = inl e -> is_errno e) /\
  (forall i e, pf_tz_register pf i = inl e -> is_errno e) /\
  (forall c, pf_match_data pf = Some c ->
             0 <= sensor_num c <= THS_H6_MAX_SENSOR_NUM).

(** The state probe is entered in: nothing called, no context published. *)
Definition pboot (m : machine) : pstate :=
  {| ps_machine := m; ps_calls := []; ps_drvdata := false |}.

(** A board on which every service succeeds: H6 match data, interrupt 42,
    fused calibration words 0x0100, 0x096e, 0x0978, thermal zones 100 + i. *)
Definition good_platform : platform :=
  {| pf_kzalloc := true; pf_match_data := Some h6_cfg;
     pf_mem_resource := true; pf_ioremap := None; pf_irq := 42;
     pf_request_irq := 0; pf_clk_get := None; pf_reset_get := None;
     pf_reset_deassert := 0; pf_clk_prepare_enable := 0;
     pf_nvmem_cell_get :=
       inr (CellData [Byte.x00; Byte.x01; Byte.x6e; Byte.x09;
                      Byte.x78; Byte.x09]);
     pf_tz_register := fun i => inr (100 + i) |}.

(** An action of the calibration loop: a warning, or an access to one of
    the two calibration registers. *)
Definition is_cal_access (e : event) : bool :=
  match e with
  | EvWarn _ => true
  | EvReadl off => (off =? THS_H6_CDATA 0) || (off =? THS_H6_CDATA 1)
  | EvWritel _ off => (off =? THS_H6_CDATA 0) || (off =? THS_H6_CDATA 1)
  | _ => false
  end.

(** What the calibration loop keeps of the machine [m0] it starts from. *)
Record cal_inv (m0 : machine) (m : machine) : Prop := mk_cal_inv {
  cal_inv_data : m_data m = m_data m0;
  cal_inv_regs : forall off,
    off <> THS_H6_CDATA 0 -> off <> THS_H6_CDATA 1 ->
    m_regs m !! off = m_regs m0 !! off;
  cal_inv_trace : exists evs,
    m_trace m = m_trace m0 ++ evs /\ forallb is_cal_access evs = true
}.

(** The register block after [sun50i_h6_ths_init] on a device of [n]
    sensors, as [init_run] shows. *)
Definition init_regs (n : Z) (r : gmap Z Z) : gmap Z Z :=
  <[THS_H6_DATA_INT_CTRL := Z.ones n]>
    (<[THS_H6_PER := 0x48000]>
       (<[THS_H6_CTRL2 := Z.ones n]>
          (<[THS_H6_FILTER := 6]>
             (<[THS_H6_CTRL0 := 0x01df002f]> r)))).

(** What the registration loop of probe keeps of the state [ps] it starts
    from. *)
Record zones_inv (ps ps' : pstate) : Prop := mk_zones_inv {
  zi_drvdata : ps_drvdata ps' = ps_drvdata ps;
  zi_regs : m_regs (ps_machine ps') = m_regs (ps_machine ps);
  zi_trace : m_trace (ps_machine ps') = m_trace (ps_machine ps);
  zi_cfg : cfg (m_data (ps_machine ps')) = cfg (m_data (ps_machine ps));
  zi_cell : calcell (m_data (ps_machine ps')) = calcell (m_data (ps_machine ps));
  zi_length : length (sensors (m_data (ps_machine ps')))
              = length (sensors (m_data (ps_machine ps)));
  zi_val : forall j s,
    sensor_at (sensors (m_data (ps_machine ps))) j = Some s ->
    exists s', sensor_at (sensors (m_data (ps_machine ps'))) j = Some s' /\
               val s' = val s;
  zi_calls : exists new,
    ps_calls ps' = ps_calls ps ++ new /\ clk_held new = 0 /\ reset_held new = 0
}.

(** What the part of probe after the clock is enabled achieves, from the
    state [ps] to the return value [r] and the state [ps']. *)
Record tail_post (pf : platform) (ps : pstate) (r : Z) (ps' : pstate)
  : Prop := mk_tail_post {
  tp_calls : exists new,
    ps_calls ps' = ps_calls ps ++ new /\
    (r = 0 -> clk_held new = 0 /\ reset_held new = 0) /\
    (r <> 0 -> exists pre,
       new = pre ++ [CallClkDisableUnprepare; CallResetAssert] /\
       clk_held pre = 0 /\ reset_held pre = 0);
  tp_drvdata : ps_drvdata ps' = (if r =? 0 then true else ps_drvdata ps);
  tp_cfg : cfg (m_data (ps_machine ps')) = cfg (m_data (ps_machine ps));
  tp_val : forall j s,
    sensor_at (sensors (m_data (ps_machine ps))) j = Some s ->
    exists s', sensor_at (sensors (m_data (ps_machine ps'))) j = Some s' /\
               val s' = val s;
  tp_zones : r = 0 ->
    forall j, 0 <= j < sensor_num (cfg (m_data (ps_machine ps))) ->
      exists z s', pf_tz_register pf j = inr z /\
        sensor_at (sensors (m_data (ps_machine ps'))) j = Some s' /\
        id s' = j /\ tzd s' = z;
  tp_init : r = 0 ->
    reg_value (m_regs (ps_machine ps')) THS_H6_CTRL2
      = Z.ones (sensor_num (cfg (m_data (ps_machine ps)))) /\
    reg_value (m_regs (ps_machine ps')) THS_H6_DATA_INT_CTRL
      = Z.ones (sensor_num (cfg (m_data (ps_machine ps))));
  tp_uncalibrated : forall e, pf_nvmem_cell_get pf = inl e ->
    m_regs (ps_machine ps') !! THS_H6_CDATA 0
      = m_regs (ps_machine ps) !! THS_H6_CDATA 0 /\
    m_regs (ps_machine ps') !! THS_H6_CDATA 1
      = m_regs (ps_machine ps) !! THS_H6_CDATA 1;
  tp_cause : r <> 0 ->
    (r = - EPROBE_DEFER /\ pf_nvmem_cell_get pf = inl (- EPROBE_DEFER)) \/
    (exists j, 0 <= j < sensor_num (cfg (m_data (ps_machine ps))) /\
               pf_tz_register pf j = inl r);
  tp_not_deferred : r = 0 -> pf_nvmem_cell_get pf <> inl (- EPROBE_DEFER)
}.

(** The calls of a probe on which every service up to the bus clock
    succeeds, up to that point. *)
Definition probe_front_calls (pf : platform) : list pcall :=
  [CallKzalloc; CallGetMatchData; CallGetResource; CallIoremapResource;
   CallGetIrq; CallRequestThreadedIrq (pf_irq pf); CallClkGet;
   CallResetControlGet; CallResetDeassert 0; CallClkPrepareEnable 0].

(** Every service up to the bus clock succeeds. *)
Definition probe_front_ok (pf : platform) : Prop :=
  pf_kzalloc pf = true /\ pf_match_data pf <> None /\
  pf_mem_resource pf = true /\ pf_ioremap pf = None /\
  0 <= pf_irq pf /\ pf_request_irq pf = 0 /\
  pf_clk_get pf = None /\ pf_reset_get pf = None /\
  pf_reset_deassert pf = 0 /\ pf_clk_prepare_enable pf = 0.

(** A probe that fails before the clock is enabled. *)
Record probe_early_failure (pf : platform) (m : machine) (r : Z)
    (ps : pstate) : Prop := mk_probe_early_failure {
  pe_cause : ~ probe_front_ok pf;
  pe_ret : r <> 0;
  pe_drvdata : ps_drvdata ps = false;
  pe_clk : clk_held (ps_calls ps) = 0;
  pe_reset : reset_held (ps_calls ps) = 0;
  pe_no_disable : ~ In CallClkDisableUnprepare (ps_calls ps);
  pe_no_enable : ~ In (CallClkPrepareEnable 0) (ps_calls ps);
  pe_no_cell : ~ In CallNvmemCellGet (ps_calls ps);
  pe_assert : In (CallResetDeassert 0) (ps_calls ps) ->
              exists pre, ps_calls ps = pre ++ [CallResetAssert];
  pe_no_assert : ~ In (CallResetDeassert 0) (ps_calls ps) ->
                 ~ In CallResetAssert (ps_calls ps);
  pe_regs : m_regs (ps_machine ps) = m_regs m;
  pe_trace : m_trace (ps_machine ps) = m_trace m
}.

(** A probe that gets as far as the lookup of the calibration cell: the
    state [mid] in which it gets there, and what the rest achieves. *)
Definition probe_late (pf : platform) (m : machine) (r : Z) (ps : pstate)
  : Prop :=
  exists c mid,
    pf_match_data pf = Some c /\
    ps_calls mid = probe_front_calls pf /\
    ps_drvdata mid = false /\
    ps_machine mid =
      {| m_data := {| cfg := c; calcell := CellError 0;
                      sensors := sensors zeroed_data |};
         m_regs := m_regs m; m_trace := m_trace m |} /\
    tail_post pf mid r ps.

(** The same board with a calibration cell whose provider is not ready. *)
Definition deferring_platform : platform :=
  {| pf_kzalloc := true; pf_match_data := Some h6_cfg;
     pf_mem_resource := true; pf_ioremap := None; pf_irq := 42;
     pf_request_irq := 0; pf_clk_get := None; pf_reset_get := None;
     pf_reset_deassert := 0; pf_clk_prepare_enable := 0;
     pf_nvmem_cell_get := inl (- EPROBE_DEFER);
     pf_tz_register := fun i => inr (100 + i) |}.

(** The board of [good_platform] with a bus clock that cannot be enabled:
    [clk_prepare_enable] answers [-EINVAL]. *)
Definition unclocked_platform : platform :=
  {| pf_kzalloc := true; pf_match_data := Some h6_cfg;
     pf_mem_resource := true; pf_ioremap := None; pf_irq := 42;
     pf_request_irq := 0; pf_clk_get := None; pf_reset_get := None;
     pf_reset_deassert := 0; pf_clk_prepare_enable := - EINVAL;
     pf_nvmem_cell_get :=
       inr (CellData [Byte.x00; Byte.x01; Byte.x6e; Byte.x09;
                      Byte.x78; Byte.x09]);
     pf_tz_register := fun i => inr (100 + i) |}.

(** * Properties *)

Module CIntFacts.

Lemma to_u32_small x : 0 <= x < 2 ^ 32 -> to_u32 x = x.
Proof. intros H. unfold to_u32. now apply Z.mod_small. Qed.

Lemma to_u16_small x : 0 <= x < 2 ^ 16 -> to_u16 x = x.
Proof. intros H. unfold to_u16. now apply Z.mod_small. Qed.

Lemma to_s32_small x : - 2 ^ 31 <= x < 2 ^ 31 -> to_s32 x = x.
Proof.
  intros H. unfold to_s32.
  destruct (Z_lt_le_dec x 0) as [Hneg | Hpos].
  - replace (x mod 2 ^ 32) with (x + 2 ^ 32).
    + destruct (Z.ltb_spec (x + 2 ^ 32) (2 ^ 31)); lia.
    + apply Z.mod_unique with (q := -1); lia.
  - rewrite Z.mod_small by lia.
    destruct (Z.ltb_spec x (2 ^ 31)); lia.
Qed.

Lemma to_s16_small x : - 2 ^ 15 <= x < 2 ^ 15 -> to_s16 x = x.
Proof.
  intros H. unfold to_s16.
  destruct (Z_lt_le_dec x 0) as [Hneg | Hpos].
  - replace (x mod 2 ^ 16) with (x + 2 ^ 16).
    + destruct (Z.ltb_spec (x + 2 ^ 16) (2 ^ 15)); lia.
    + apply Z.mod_unique with (q := -1); lia.
  - rewrite Z.mod_small by lia.
    destruct (Z.ltb_spec x (2 ^ 15)); lia.
Qed.

Lemma to_s16_range x : - 2 ^ 15 <= to_s16 x < 2 ^ 15.
Proof.
  unfold to_s16. pose proof (Z.mod_pos_bound x (2 ^ 16) ltac:(lia)).
  destruct (Z.ltb_spec (x mod 2 ^ 16) (2 ^ 15)); lia.
Qed.

Lemma to_s16_wrap x :
  - 2 ^ 16 <= x < 2 ^ 16 ->
  to_s16 x = (if x <? - 2 ^ 15 then x + 2 ^ 16
              else if x <? 2 ^ 15 then x else x - 2 ^ 16).
Proof.
  intros H.
  destruct (Z.ltb_spec x (- 2 ^ 15)); [| destruct (Z.ltb_spec x (2 ^ 15))].
  - replace x with (x + 2 ^ 16 + (-1) * 2 ^ 16) at 1 by lia.
    unfold to_s16. rewrite Z.mod_add by lia.
    rewrite Z.mod_small by lia.
    destruct (Z.ltb_spec (x + 2 ^ 16) (2 ^ 15)); lia.
  - apply to_s16_small. lia.
  - unfold to_s16. rewrite Z.mod_small by lia.
    destruct (Z.ltb_spec x (2 ^ 15)); lia.
Qed.

End CIntFacts.
Import CIntFacts.

(** ** Temperature conversion *)

Section Conversion.

(** The [u32] quotient of [calc_temp] always fits an [int]. *)
Lemma calc_temp_quotient_int x :
  to_s32 (to_u32 x / 14882) = (x mod 2 ^ 32) / 14882.
Proof.
  unfold to_u32. apply to_s32_small.
  pose proof (Z.mod_pos_bound x (2 ^ 32) ltac:(lia)) as Hm.
  split.
  - transitivity 0; [lia | apply Z.div_pos; lia].
  - apply Z.div_lt_upper_bound; lia.
Qed.

Lemma calc_temp_unfold val :
  sun50i_h6_ths_calc_temp val = 187744 - ((val * 1000000) mod 2 ^ 32) / 14882.
Proof. unfold sun50i_h6_ths_calc_temp. now rewrite calc_temp_quotient_int. Qed.

(** Without wrap-around the code is the linear formula. *)
Lemma calc_temp_exact raw :
  0 <= raw <= calc_temp_max_exact ->
  sun50i_h6_ths_calc_temp raw = linear_formula raw.
Proof.
  unfold calc_temp_max_exact. intros H.
  rewrite calc_temp_unfold. unfold linear_formula.
  rewrite Z.mod_small by lia. reflexivity.
Qed.

(** One more raw unit lowers the linear formula by at least 67. *)
Lemma linear_formula_step r1 r2 :
  r1 < r2 -> linear_formula r2 + 67 <= linear_formula r1.
Proof.
  intros H. unfold linear_formula.
  assert (r1 * 1000000 / 14882 + 67 <= r2 * 1000000 / 14882); [| lia].
  replace (r1 * 1000000 / 14882 + 67)
    with ((r1 * 1000000 + 67 * 14882) / 14882)
    by (rewrite Z.div_add by lia; reflexivity).
  apply Z.div_le_mono; lia.
Qed.

(** With wrap-around the quotient is below 288602, while the quotient of
    the exact product is above it from 4295 on. *)
Lemma calc_temp_wrapped raw :
  calc_temp_max_exact < raw ->
  linear_formula raw < sun50i_h6_ths_calc_temp raw.
Proof.
  unfold calc_temp_max_exact. intros H.
  rewrite calc_temp_unfold. unfold linear_formula.
  pose proof (Z.mod_pos_bound (raw * 1000000) (2 ^ 32) ltac:(lia)) as Hm.
  assert ((raw * 1000000) mod 2 ^ 32 / 14882 < 288602)
    by (apply Z.div_lt_upper_bound; lia).
  assert (288602 <= raw * 1000000 / 14882)
    by (apply Z.div_le_lower_bound; lia).
  lia.
Qed.

(** The inverse formula undoes the conversion as long as the temperature
    is not negative. *)
Lemma recalc_reg_calc_temp raw :
  0 <= raw <= 2794 ->
  sun50i_h6_ths_recalc_reg (to_u32 (sun50i_h6_ths_calc_temp raw)) = raw.
Proof.
  intros H.
  rewrite calc_temp_exact by (unfold calc_temp_max_exact; lia).
  unfold linear_formula, sun50i_h6_ths_recalc_reg.
  set (q := raw * 1000000 / 14882).
  assert (Hq : 14882 * q <= raw * 1000000 < 14882 * q + 14882).
  { subst q. pose proof (Z.mul_div_le (raw * 1000000) 14882 ltac:(lia)).
    pose proof (Z.mul_succ_div_gt (raw * 1000000) 14882 ltac:(lia)). lia. }
  rewrite (to_u32_small (187744 - q)) by lia.
  rewrite (to_u32_small ((187744 - q) * 14882)) by lia.
  assert (Hd : (187744 - q) * 14882 / 1000000 = 2794 - raw).
  { symmetry. apply Z.div_unique with (r := (187744 - q) * 14882 - 1000000 * (2794 - raw)); lia. }
  rewrite Hd. replace (2794 - (2794 - raw)) with raw by lia.
  rewrite to_u32_small by lia. apply to_u16_small. lia.
Qed.

End Conversion.

(** C10: the product [val * 1000000] is a 32-bit unsigned product.  For
    every [u32] raw value the function returns
    [187744 - floor((val * 1000000 mod 2^32) / 14882)]; up to 4294 this is
    the linear formula [187744 - floor(val * 1000000 / 14882)], from 4295
    on the product wraps and the result is not the value of the linear
    formula. *)
Theorem calc_temp_u32_product (val : Z) :
  0 <= val < 2 ^ 32 ->
  sun50i_h6_ths_calc_temp val = 187744 - ((val * 1000000) mod 2 ^ 32) / 14882 /\
  (val <= 4294 ->
   sun50i_h6_ths_calc_temp val = 187744 - val * 1000000 / 14882) /\
  (4295 <= val ->
   sun50i_h6_ths_calc_temp val <> 187744 - val * 1000000 / 14882).
Proof.
  intros Hval. split; [apply calc_temp_unfold |]. split.
  - intros Hle. apply calc_temp_exact. unfold calc_temp_max_exact. lia.
  - intros Hge.
    pose proof (calc_temp_wrapped val) as Hw.
    unfold calc_temp_max_exact, linear_formula in Hw. lia.
Qed.

Lemma calc_temp_u32_product_witness :
  0 <= 5000 < 2 ^ 32 /\
  sun50i_h6_ths_calc_temp 5000 = 187744 - ((5000 * 1000000) mod 2 ^ 32) / 14882.
Proof.
  split; [lia |].
  exact (proj1 (calc_temp_u32_product 5000 ltac:(lia))).
Defined.

(** C1, as the code has it: for every raw value from 0 to 4294 (which
    covers the 12-bit readings of the sensor) the conversion equals the
    linear formula [187744 - raw * 1000000 / 14882] exactly and is strictly
    decreasing in raw; raw = 0 yields 187744 and the zero crossing is at
    raw = 2794, which yields 1 (raw = 2795 yields -66). *)
Theorem calc_temp_linear_decreasing :
  (forall raw, 0 <= raw <= 4294 ->
     sun50i_h6_ths_calc_temp raw = 187744 - raw * 1000000 / 14882) /\
  (forall r1 r2, 0 <= r1 -> r1 < r2 -> r2 <= 4294 ->
     sun50i_h6_ths_calc_temp r2 < sun50i_h6_ths_calc_temp r1) /\
  sun50i_h6_ths_calc_temp 0 = 187744 /\
  sun50i_h6_ths_calc_temp 2794 = 1 /\
  sun50i_h6_ths_calc_temp 2795 = -66.
Proof.
  split; [| split; [| repeat split; reflexivity]].
  - intros raw H. apply calc_temp_exact. unfold calc_temp_max_exact. lia.
  - intros r1 r2 H0 Hlt H1.
    rewrite !calc_temp_exact by (unfold calc_temp_max_exact; lia).
    pose proof (linear_formula_step r1 r2 Hlt). lia.
Qed.

Lemma calc_temp_linear_decreasing_witness :
  sun50i_h6_ths_calc_temp 2500 = 187744 - 2500 * 1000000 / 14882 /\
  sun50i_h6_ths_calc_temp 2500 < sun50i_h6_ths_calc_temp 2499.
Proof.
  destruct calc_temp_linear_decreasing as [Hlin [Hdec _]].
  split.
  - apply Hlin. lia.
  - apply Hdec; lia.
Defined.

(** C1, as the specification states it, fails: at raw = 5000 the code
    returns 140370, not the value -148232 of the linear formula; at
    raw = 12634 it returns -83998, not 0 within rounding (the linear
    formula itself gives -661201 there); and across the wrap-around the
    result goes up, not down. *)
Lemma calc_temp_claim_fails :
  sun50i_h6_ths_calc_temp 5000 = 140370 /\
  sun50i_h6_ths_calc_temp 5000 <> 187744 - 5000 * 1000000 / 14882 /\
  sun50i_h6_ths_calc_temp 12634 = -83998 /\
  187744 - 12634 * 1000000 / 14882 = -661201 /\
  ~ (sun50i_h6_ths_calc_temp 4295 < sun50i_h6_ths_calc_temp 4294).
Proof. repeat split; try reflexivity; vm_compute; intros H; discriminate H. Qed.

(** C2, as the code has it: for every raw value from 0 to 2794, the values
    whose temperature is not negative and so survives the unsigned
    parameter of the inverse formula, the inverse formula applied to the
    converted temperature gives back the raw value itself, hence a value
    within 1 of it. *)
Theorem recalc_reg_inverts_calc_temp (raw : Z) :
  0 <= raw <= 2794 ->
  sun50i_h6_ths_recalc_reg (to_u32 (sun50i_h6_ths_calc_temp raw)) = raw /\
  Z.abs (sun50i_h6_ths_recalc_reg (to_u32 (sun50i_h6_ths_calc_temp raw)) - raw) <= 1.
Proof.
  intros H. rewrite recalc_reg_calc_temp by exact H. split; [reflexivity | lia].
Qed.

Lemma recalc_reg_inverts_calc_temp_witness :
  0 <= 2414 <= 2794 /\
  sun50i_h6_ths_recalc_reg (to_u32 (sun50i_h6_ths_calc_temp 2414)) = 2414.
Proof.
  split; [lia |].
  exact (proj1 (recalc_reg_inverts_calc_temp 2414 ltac:(lia))).
Defined.

(** C2, as the specification states it, fails on 12-bit raw values above
    2794: raw = 2795 converts to -66, which the inverse formula receives as
    the [u32] 4294967230 and maps to 64037. *)
Lemma recalc_reg_round_trip_fails :
  0 <= 2795 < 2 ^ 12 /\
  sun50i_h6_ths_calc_temp 2795 = -66 /\
  sun50i_h6_ths_recalc_reg (to_u32 (sun50i_h6_ths_calc_temp 2795)) = 64037 /\
  ~ (Z.abs (sun50i_h6_ths_recalc_reg (to_u32 (sun50i_h6_ths_calc_temp 2795)) - 2795) <= 1).
Proof.
  split; [lia |]. split; [reflexivity |]. split; [reflexivity |].
  vm_compute. intros H. apply H. reflexivity.
Qed.

(** ** Loops *)

Section Loops.

Variable body : Z -> M unit.
Variable n : Z.

(** Any iteration bound of at least [n - i] gives the same run: the loop
    always leaves through its condition. *)
Lemma for_loop_fuel (step : Z) :
  0 < step ->
  forall f1 f2 i m,
    (Z.to_nat (n - i) <= f1)%nat -> (Z.to_nat (n - i) <= f2)%nat ->
    for_loop f1 i n step body m = for_loop f2 i n step body m.
Proof.
  intros Hstep. induction f1 as [| f1 IH]; intros f2 i m H1 H2.
  - assert (n <= i) by lia.
    destruct f2; simpl; [reflexivity |].
    destruct (Z.ltb_spec i n); [lia | reflexivity].
  - simpl. destruct (Z.ltb_spec i n) as [Hlt | Hge].
    + destruct f2 as [| f2]; [lia |]. simpl.
      destruct (Z.ltb_spec i n); [| lia].
      unfold bind. destruct (body i m) as [[[] m'] |]; [| reflexivity].
      apply IH; lia.
    + destruct f2; simpl; [reflexivity |].
      destruct (Z.ltb_spec i n); [lia | reflexivity].
Qed.

(** Invariant rule for the loops that count up by one. *)
Lemma for_loop_invariant (Inv : Z -> machine -> Prop) :
  (forall i m, 0 <= i < n -> Inv i m ->
     exists m', body i m = Some (tt, m') /\ Inv (i + 1) m') ->
  forall fuel i m,
    0 <= i <= n -> (Z.to_nat (n - i) <= fuel)%nat -> Inv i m ->
    exists m', for_loop fuel i n 1 body m = Some (tt, m') /\ Inv n m'.
Proof.
  intros Hbody. induction fuel as [| fuel IH]; intros i m Hi Hf HI.
  - assert (i = n) by lia. subst i. exists m. split; [reflexivity | exact HI].
  - simpl. destruct (Z.ltb_spec i n) as [Hlt | Hge].
    + destruct (Hbody i m ltac:(lia) HI) as [m1 [Hb HI1]].
      destruct (IH (i + 1) m1 ltac:(lia) ltac:(lia) HI1) as [m' [Hl HI']].
      exists m'. split; [| exact HI'].
      unfold bind. rewrite Hb. exact Hl.
    + assert (i = n) by lia. subst i. exists m. split; [reflexivity | exact HI].
Qed.

End Loops.

(** ** Temperature query *)

(** C3: the query fails with [-EBUSY] exactly when the latched raw sample
    of the sensor is 0; otherwise it returns 0 and hands out the family
    conversion of the stored raw value; in both cases the machine (sensor
    entries, registers, trace of actions) is left as it was. *)
Theorem get_temp_busy_iff_no_sample (m : machine) (i out : Z)
    (s : sun50i_h6_ths_sensor) :
  sensor_at (sensors (m_data m)) i = Some s ->
  exists r out',
    sun50i_h6_ths_get_temp i out m = Some ((r, out'), m) /\
    (r = - EBUSY <-> val s = 0) /\
    (val s = 0 -> out' = out) /\
    (val s <> 0 -> r = 0 /\ out' = calc_temp (cfg (m_data m)) (val s)).
Proof.
  intros Hs.
  unfold sun50i_h6_ths_get_temp, bind, get_sensor, lift. rewrite Hs.
  destruct (Z.eqb_spec (val s) 0) as [Hz | Hnz].
  - exists (- EBUSY), out. unfold ret.
    split; [reflexivity |]. split; [tauto |]. split; [tauto | contradiction].
  - exists 0, (calc_temp (cfg (m_data m)) (val s)).
    unfold get_data, ret. split; [reflexivity |]. unfold EBUSY.
    split; [split; [lia | contradiction] |]. split; [contradiction | auto].
Qed.

Lemma get_temp_busy_iff_no_sample_witness :
  exists r out',
    sun50i_h6_ths_get_temp 1 7
      (boot {| cfg := h6_cfg; calcell := CellError (-2);
               sensors := [mk_sensor 0 10 0; mk_sensor 1 11 2414;
                           mk_sensor 2 12 0; mk_sensor 3 13 0] |} ∅)
    = Some ((r, out'),
            boot {| cfg := h6_cfg; calcell := CellError (-2);
                    sensors := [mk_sensor 0 10 0; mk_sensor 1 11 2414;
                                mk_sensor 2 12 0; mk_sensor 3 13 0] |} ∅) /\
    (r = - EBUSY <-> 2414 = 0) /\
    (2414 = 0 -> out' = 7) /\
    (2414 <> 0 -> r = 0 /\ out' = sun50i_h6_ths_calc_temp 2414).
Proof.
  exact (get_temp_busy_iff_no_sample
           (boot {| cfg := h6_cfg; calcell := CellError (-2);
                    sensors := [mk_sensor 0 10 0; mk_sensor 1 11 2414;
                                mk_sensor 2 12 0; mk_sensor 3 13 0] |} ∅)
           1 7 (mk_sensor 1 11 2414) eq_refl).
Defined.

(** ** Calibration: rejected buffers *)

(** C5: with a readable calibration cell, the calibration fails with
    [-EINVAL] when the buffer is shorter than [2 + 2 * sensor_num] bytes or
    when its first 16-bit word is zero; it then has only read the cell:
    no register access was made and the register block is as before. *)
Theorem calibrate_rejects_invalid_data (m : machine) (bytes : list Byte.byte) :
  calcell (m_data m) = CellData bytes ->
  0 <= sensor_num (cfg (m_data m)) <= THS_H6_MAX_SENSOR_NUM ->
  Z.of_nat (length bytes) < 2 + 2 * sensor_num (cfg (m_data m)) \/
    caldata_word bytes 0 = Some 0 ->
  exists m',
    sun50i_h6_ths_calibrate m = Some (- EINVAL, m') /\
    m_regs m' = m_regs m /\
    m_data m' = m_data m /\
    m_trace m' = m_trace m ++ [EvNvmemRead].
Proof.
  unfold THS_H6_MAX_SENSOR_NUM. intros Hcell Hn Hbad.
  unfold sun50i_h6_ths_calibrate, nvmem_cell_read, bind, get_data, emit, ret.
  rewrite Hcell. cbn [m_data m_regs m_trace].
  assert (Hsz : to_size_t (2 + 2 * sensor_num (cfg (m_data m)))
                = 2 + 2 * sensor_num (cfg (m_data m))).
  { unfold to_size_t. apply Z.mod_small. lia. }
  rewrite Hsz.
  destruct (Z.ltb_spec (Z.of_nat (length bytes))
              (2 + 2 * sensor_num (cfg (m_data m)))) as [Hshort | Hlong].
  - eexists. split; [reflexivity |]. cbn. auto.
  - destruct Hbad as [Hshort | Hzero]; [lia |].
    unfold lift. rewrite Hzero. cbn.
    eexists. split; [reflexivity |]. cbn. auto.
Qed.

Lemma calibrate_rejects_invalid_data_witness :
  exists m',
    sun50i_h6_ths_calibrate
      (boot {| cfg := h6_cfg;
               calcell := CellData [Byte.x00; Byte.x00; Byte.x6e; Byte.x09;
                                    Byte.x6e; Byte.x09];
               sensors := [mk_sensor 0 10 0; mk_sensor 1 11 0;
                           mk_sensor 2 12 0; mk_sensor 3 13 0] |}
            {[ THS_H6_CDATA 0 := 0x08000800 ]})
    = Some (- EINVAL, m') /\
    m_regs m' = {[ THS_H6_CDATA 0 := 0x08000800 ]}.
Proof.
  destruct (calibrate_rejects_invalid_data
              (boot {| cfg := h6_cfg;
                       calcell := CellData [Byte.x00; Byte.x00; Byte.x6e; Byte.x09;
                                            Byte.x6e; Byte.x09];
                       sensors := [mk_sensor 0 10 0; mk_sensor 1 11 0;
                                   mk_sensor 2 12 0; mk_sensor 3 13 0] |}
                    {[ THS_H6_CDATA 0 := 0x08000800 ]})
              [Byte.x00; Byte.x00; Byte.x6e; Byte.x09; Byte.x6e; Byte.x09]
              eq_refl
              ltac:(unfold THS_H6_MAX_SENSOR_NUM; simpl; lia)
              (or_intror eq_refl))
    as [m' [Hrun [Hregs _]]].
  exists m'. split; [exact Hrun | exact Hregs].
Defined.

(** ** Interrupt handler *)

Section BitFacts.

Lemma land_BIT_eqb a k :
  0 <= k -> (Z.land a (BIT k) =? 0) = negb (Z.testbit a k).
Proof.
  intros Hk. unfold BIT. rewrite Z.shiftl_1_l.
  destruct (Z.testbit a k) eqn:E; simpl.
  - apply Z.eqb_neq. intros H0.
    assert (Hb : Z.testbit (Z.land a (2 ^ k)) k = true).
    { rewrite Z.land_spec, E, Z.pow2_bits_eqb, Z.eqb_refl by lia. reflexivity. }
    rewrite H0, Z.bits_0 in Hb. discriminate.
  - apply Z.eqb_eq. apply Z.bits_inj'. intros j Hj.
    rewrite Z.land_spec, Z.bits_0, Z.pow2_bits_eqb by lia.
    destruct (Z.eqb_spec k j) as [-> | _]; [rewrite E; reflexivity |].
    apply andb_false_r.
Qed.

Lemma testbit_clear_BIT a k j :
  0 <= k < 32 ->
  Z.testbit (Z.ldiff a (to_u32 (BIT k))) j = Z.testbit a j && negb (k =? j).
Proof.
  intros Hk. unfold BIT. rewrite Z.shiftl_1_l.
  rewrite to_u32_small.
  - rewrite Z.ldiff_spec, Z.pow2_bits_eqb by lia. reflexivity.
  - split; [apply Z.pow_nonneg; lia |].
    apply Z.pow_lt_mono_r; lia.
Qed.

End BitFacts.

Lemma sensor_at_lt (l : list sun50i_h6_ths_sensor) j :
  0 <= j < Z.of_nat (length l) -> exists s, sensor_at l j = Some s.
Proof.
  intros H. unfold sensor_at.
  destruct (Z.leb_spec 0 j); [| lia].
  destruct (lookup_lt_is_Some_2 l (Z.to_nat j) ltac:(lia)) as [s Hs].
  exists s. exact Hs.
Qed.

Lemma sensor_at_insert_eq (l : list sun50i_h6_ths_sensor) j s' s :
  sensor_at l j = Some s -> sensor_at (<[Z.to_nat j := s']> l) j = Some s'.
Proof.
  unfold sensor_at. intros Hs.
  destruct (Z.leb_spec 0 j); [| discriminate].
  apply list_lookup_insert_eq. eapply lookup_lt_Some. exact Hs.
Qed.

Lemma sensor_at_insert_ne (l : list sun50i_h6_ths_sensor) k j s' :
  0 <= k -> j <> k -> sensor_at (<[Z.to_nat k := s']> l) j = sensor_at l j.
Proof.
  intros Hk Hne. unfold sensor_at.
  destruct (Z.leb_spec 0 j); [| reflexivity].
  apply list_lookup_insert_ne. lia.
Qed.

Lemma readl_run off m :
  readl off m = Some (reg_value (m_regs m) off, log m (EvReadl off)).
Proof. reflexivity. Qed.

Lemma writel_run v off m :
  writel v off m =
  Some (tt, {| m_data := m_data m; m_regs := hw_writel (m_regs m) v off;
               m_trace := m_trace m ++ [EvWritel v off] |}).
Proof. reflexivity. Qed.

Lemma writew_run hw v off m :
  writew hw v off m =
  Some (tt, {| m_data := m_data m; m_regs := hw (m_regs m) v off;
               m_trace := m_trace m ++ [EvWritew v off] |}).
Proof. reflexivity. Qed.

Lemma reg_value_insert_eq (r : gmap Z Z) off v :
  reg_value (<[off := v]> r) off = v.
Proof. unfold reg_value. now rewrite lookup_insert_eq. Qed.

Lemma reg_value_insert_ne (r : gmap Z Z) off off' v :
  off <> off' -> reg_value (<[off := v]> r) off' = reg_value r off'.
Proof. intros H. unfold reg_value. now rewrite lookup_insert_ne. Qed.

Lemma irq_inv_init m0 : irq_inv m0 0 m0.
Proof.
  constructor; try reflexivity.
  - simpl. now rewrite app_nil_r.
  - intros j Hj. destruct (Z.ltb_spec j 0); [lia |]. now rewrite andb_true_r.
  - intros j s Hs. rewrite Hs. unfold sensor_at in Hs.
    destruct (Z.leb_spec 0 j); [| discriminate].
    destruct (Z.ltb_spec j 0); [lia | reflexivity].
Qed.

Lemma irq_thread_body_step m0 k m :
  wf_machine m0 -> 0 <= k < sensor_num (cfg (m_data m0)) ->
  irq_inv m0 k m ->
  exists m', irq_thread_body k m = Some (tt, m') /\ irq_inv m0 (k + 1) m'.
Proof.
  intros [Hn Hlen] Hk HI. unfold THS_H6_MAX_SENSOR_NUM in *.
  destruct (sensor_at_lt (sensors (m_data m0)) k ltac:(lia)) as [s0 Hs0].
  pose proof (inv_sensors _ _ _ HI k s0 Hs0) as Hsk.
  replace (k <? k) with false in Hsk by (symmetry; apply Z.ltb_irrefl).
  simpl in Hsk.
  pose proof (inv_pending _ _ _ HI k ltac:(lia)) as Hpk.
  replace (k <? k) with false in Hpk by (symmetry; apply Z.ltb_irrefl).
  rewrite andb_true_r in Hpk.
  assert (Hseq : seqZ 0 (k + 1) = seqZ 0 k ++ [k]).
  { rewrite seqZ_app by lia. reflexivity. }
  assert (Hdata : THS_H6_DATA k <> THS_H6_DATA_INT_STAT).
  { unfold THS_H6_DATA, THS_H6_DATA_INT_STAT. lia. }
  unfold irq_thread_body, bind. rewrite readl_run.
  unfold THS_H6_STAT_DATA_IRQ_STS. replace (0 + k) with k by lia.
  rewrite land_BIT_eqb by lia.
  fold (irq_pending (m_regs m) k). rewrite Hpk.
  destruct (irq_pending (m_regs m0) k) eqn:Hpend; cbn [negb]; cbv beta iota.
  - (* pending *)
    rewrite writel_run. cbv beta iota. rewrite readl_run.
    cbn [m_data m_regs m_trace log].
    unfold set_sensor_val, log. cbn [m_data m_regs m_trace]. rewrite Hsk.
    unfold get_sensor, lift. cbn [m_data m_regs m_trace sensors].
    rewrite (sensor_at_insert_eq _ _ _ _ Hsk). cbn [val latch tzd].
    assert (Hv : reg_value (hw_writel (m_regs m) (BIT k) THS_H6_DATA_INT_STAT)
                   (THS_H6_DATA k) = reg_value (m_regs m0) (THS_H6_DATA k)).
    { unfold hw_writel. rewrite Z.eqb_refl.
      rewrite reg_value_insert_ne by (intros E; apply Hdata; symmetry; exact E).
      unfold reg_value. now rewrite (inv_regs _ _ _ HI _ Hdata). }
    rewrite Hv. clear Hv.
    set (v := reg_value (m_regs m0) (THS_H6_DATA k)).
    assert (Hinv : forall tr,
      tr = m_trace m0 ++ flat_map (irq_events_spec m0) (seqZ 0 (k + 1)) ->
      irq_inv m0 (k + 1)
        {| m_data := {| cfg := cfg (m_data m); calcell := calcell (m_data m);
                        sensors := <[Z.to_nat k := latch s0 v]> (sensors (m_data m)) |};
           m_regs := hw_writel (m_regs m) (BIT k) THS_H6_DATA_INT_STAT;
           m_trace := tr |}).
    { intros tr Htr.
      constructor; cbn [m_data m_regs m_trace cfg calcell sensors];
        try apply HI.
      - exact Htr.
      - intros off Hoff. unfold hw_writel. rewrite Z.eqb_refl.
        rewrite lookup_insert_ne by (intros E; apply Hoff; symmetry; exact E).
        now apply HI.
      - intros j Hj. unfold irq_pending at 1. unfold hw_writel.
        rewrite Z.eqb_refl, reg_value_insert_eq.
        rewrite testbit_clear_BIT by lia.
        fold (irq_pending (m_regs m) j). rewrite (inv_pending _ _ _ HI j Hj).
        rewrite <- andb_assoc. f_equal.
        destruct (Z.ltb_spec j k), (Z.ltb_spec j (k + 1)), (Z.eqb_spec k j);
          lia || reflexivity.
      - rewrite length_insert. apply HI.
      - intros j s Hs. destruct (Z.eq_dec j k) as [-> | Hne].
        + rewrite (sensor_at_insert_eq _ _ _ _ Hsk).
          assert (s = s0) by congruence. subst s.
          rewrite Hpend. destruct (Z.ltb_spec k (k + 1)); [reflexivity | lia].
        + rewrite sensor_at_insert_ne by lia.
          rewrite (inv_sensors _ _ _ HI j s Hs).
          replace (j <? k + 1) with (j <? k); [reflexivity |].
          destruct (Z.ltb_spec j k), (Z.ltb_spec j (k + 1)); lia || reflexivity. }
    assert (Hev : irq_events_spec m0 k =
                  [EvReadl THS_H6_DATA_INT_STAT;
                   EvWritel (BIT k) THS_H6_DATA_INT_STAT;
                   EvReadl (THS_H6_DATA k)] ++
                  (if v =? 0 then [] else [EvTzUpdate (tzd s0)])).
    { unfold irq_events_spec, THS_H6_STAT_DATA_IRQ_STS.
      replace (0 + k) with k by lia. rewrite Hpend, Hs0. reflexivity. }
    destruct (v =? 0) eqn:Hz.
    + unfold ret. eexists. split; [reflexivity |]. apply Hinv.
      rewrite (inv_trace _ _ _ HI), Hseq, flat_map_app. cbn [flat_map].
      rewrite Hev, !app_nil_r, <- !app_assoc. reflexivity.
    + unfold thermal_zone_device_update, emit, log. cbn [m_data m_regs m_trace].
      eexists. split; [reflexivity |]. apply Hinv.
      rewrite (inv_trace _ _ _ HI), Hseq, flat_map_app. cbn [flat_map].
      rewrite Hev, !app_nil_r, <- !app_assoc. reflexivity.
  - unfold ret. eexists. split; [reflexivity |].
    constructor; cbn [m_data m_regs m_trace log]; try apply HI.
    + rewrite (inv_trace _ _ _ HI), Hseq, flat_map_app, <- app_assoc.
      f_equal. simpl. unfold irq_events_spec. rewrite Hpend. reflexivity.
    + intros j Hj. rewrite (inv_pending _ _ _ HI j Hj).
      destruct (Z.eq_dec j k) as [-> | Hne].
      * rewrite Hpend. reflexivity.
      * f_equal. f_equal. destruct (Z.ltb_spec j k), (Z.ltb_spec j (k + 1)); lia || reflexivity.
    + intros j s Hs. rewrite (inv_sensors _ _ _ HI j s Hs).
      destruct (Z.eq_dec j k) as [-> | Hne].
      * rewrite Hpend, !andb_false_r. reflexivity.
      * replace (j <? k + 1) with (j <? k); [reflexivity |].
        destruct (Z.ltb_spec j k), (Z.ltb_spec j (k + 1)); lia || reflexivity.
Qed.

(** C4: one run of the threaded handler processes exactly the sensors whose
    data-ready bit is set.  The trace of the run is the concatenation, over
    the sensors in order, of [irq_events_spec]: for a pending sensor the
    write-1-to-clear of its status bit comes before the read of its data
    register, and the thermal zone is notified if and only if the value read
    is not zero.  A pending sensor ends with its status bit clear and the
    value read latched in its entry; a sensor that is not pending, or
    outside the configuration, keeps its status bit and its entry, and
    causes no write, data read or notification.  No register other than the
    status register changes. *)
Theorem irq_thread_drains_pending (m : machine) (irq : Z) :
  wf_machine m ->
  exists m',
    sun50i_h6_ths_irq_thread irq m = Some (IRQ_HANDLED, m') /\
    m_trace m' =
      m_trace m ++
      flat_map (irq_events_spec m) (seqZ 0 (sensor_num (cfg (m_data m)))) /\
    (forall i s,
       0 <= i < sensor_num (cfg (m_data m)) ->
       irq_pending (m_regs m) i = true ->
       sensor_at (sensors (m_data m)) i = Some s ->
       irq_pending (m_regs m') i = false /\
       sensor_at (sensors (m_data m')) i =
         Some (latch s (reg_value (m_regs m) (THS_H6_DATA i)))) /\
    (forall i,
       0 <= i ->
       sensor_num (cfg (m_data m)) <= i \/ irq_pending (m_regs m) i = false ->
       irq_pending (m_regs m') i = irq_pending (m_regs m) i /\
       sensor_at (sensors (m_data m')) i = sensor_at (sensors (m_data m)) i) /\
    (forall off, off <> THS_H6_DATA_INT_STAT ->
       m_regs m' !! off = m_regs m !! off).
Proof.
  intros Hwf. pose proof Hwf as [Hn Hlen].
  set (n := sensor_num (cfg (m_data m))) in *.
  destruct (for_loop_invariant irq_thread_body n (irq_inv m)
              (fun i mi Hi HI => irq_thread_body_step m i mi Hwf Hi HI)
              (Z.to_nat n) 0 m ltac:(lia) ltac:(lia) (irq_inv_init m))
    as [m' [Hrun HI]].
  exists m'. split.
  { unfold sun50i_h6_ths_irq_thread, bind, get_data. fold n. rewrite Hrun.
    reflexivity. }
  split; [apply HI |]. split; [| split; [| apply HI]].
  - intros i s Hi Hp Hs. split.
    + rewrite (inv_pending _ _ _ HI i ltac:(lia)), Hp.
      destruct (Z.ltb_spec i n); [reflexivity | lia].
    + rewrite (inv_sensors _ _ _ HI i s Hs), Hp.
      destruct (Z.ltb_spec i n); [reflexivity | lia].
  - intros i Hi Hcase. split.
    + rewrite (inv_pending _ _ _ HI i Hi).
      destruct Hcase as [Hge | Hnp].
      * destruct (Z.ltb_spec i n); [lia |]. apply andb_true_r.
      * rewrite Hnp. reflexivity.
    + destruct (sensor_at (sensors (m_data m)) i) as [s |] eqn:Hs.
      * rewrite (inv_sensors _ _ _ HI i s Hs).
        destruct Hcase as [Hge | Hnp].
        -- destruct (Z.ltb_spec i n); [lia | reflexivity].
        -- rewrite Hnp, andb_false_r. reflexivity.
      * unfold sensor_at in *. destruct (Z.leb_spec 0 i); [| reflexivity].
        apply lookup_ge_None. apply lookup_ge_None in Hs.
        rewrite (inv_length _ _ _ HI). exact Hs.
Qed.

Lemma irq_thread_drains_pending_witness :
  wf_machine demo_machine /\
  exists m',
    sun50i_h6_ths_irq_thread 0 demo_machine = Some (IRQ_HANDLED, m') /\
    m_trace m' =
      [EvReadl 0x20; EvWritel 1 0x20; EvReadl 0xc0; EvTzUpdate 10;
       EvReadl 0x20; EvWritel 2 0x20; EvReadl 0xc4].
Proof.
  assert (Hwf : wf_machine demo_machine)
    by (unfold wf_machine, THS_H6_MAX_SENSOR_NUM; simpl; split; [lia | reflexivity]).
  split; [exact Hwf |].
  destruct (irq_thread_drains_pending demo_machine 0 Hwf)
    as [m' [Hrun [Htrace _]]].
  exists m'. split; [exact Hrun |].
  rewrite Htrace. reflexivity.
Defined.

(** ** Calibration on the two sensors of an H6 *)

Section Calibration.

Lemma cal_valid_range c : cal_valid c = true <-> 0 <= c < 4096.
Proof.
  unfold cal_valid, THS_H6_CAL_VAL_MASK.
  change 0xfff with (Z.ones 12).
  rewrite <- Z.ldiff_land, Z.ldiff_ones_r by lia.
  rewrite Z.shiftl_mul_pow2, Z.shiftr_div_pow2 by lia.
  rewrite Z.eqb_eq. change (2 ^ 12) with 4096.
  split.
  - intros H. assert (H0 : c / 4096 = 0) by lia.
    apply Z.div_small_iff in H0; lia.
  - intros H. rewrite Z.div_small by lia. reflexivity.
Qed.

(** The expected raw value at the factory temperature is [2794 - q] for a
    quotient [q] of at most 4294, whatever the first word is. *)
Lemma ft_temp_orig_reg_range w0 : -1500 <= ft_temp_orig_reg_of w0 <= 2794.
Proof.
  unfold ft_temp_orig_reg_of, ft_temp_of, sun50i_h6_ths_recalc_reg,
    THS_H6_CAL_FT_TEMP_MASK.
  change 0xfff with (Z.ones 12). rewrite Z.land_ones by lia.
  pose proof (Z.mod_pos_bound w0 (2 ^ 12) ltac:(lia)) as Hk.
  rewrite (to_u32_small (w0 mod 2 ^ 12 * 100)) by lia.
  set (q := to_u32 (w0 mod 2 ^ 12 * 100 * 14882) / 1000000).
  assert (Hq : 0 <= q <= 4294).
  { subst q. unfold to_u32.
    pose proof (Z.mod_pos_bound (w0 mod 2 ^ 12 * 100 * 14882) (2 ^ 32) ltac:(lia)).
    split; [apply Z.div_pos; lia |].
    apply Z.lt_succ_r. apply Z.div_lt_upper_bound; lia. }
  destruct (Z_le_gt_dec q 2794) as [Hle | Hgt].
  - rewrite to_u32_small, to_u16_small, to_s16_small by lia. lia.
  - assert (E32 : to_u32 (2794 - q) = 2794 - q + 2 ^ 32).
    { unfold to_u32. symmetry. apply Z.mod_unique with (q := -1); lia. }
    assert (E16 : to_u16 (2794 - q + 2 ^ 32) = 2794 - q + 2 ^ 16).
    { unfold to_u16. symmetry. apply Z.mod_unique with (q := 65535); lia. }
    rewrite E32, E16, to_s16_wrap by lia.
    destruct (Z.ltb_spec (2794 - q + 2 ^ 16) (- 2 ^ 15)); [lia |].
    destruct (Z.ltb_spec (2794 - q + 2 ^ 16) (2 ^ 15)); lia.
Qed.

(** The range check of the loop is the 12-bit range check on the derived
    value [0x800 - (expected_raw - stored_raw)] itself: the two [s16]
    truncations never turn a value outside the range into one inside. *)
Lemma cal_valid_derived_value e w :
  -1500 <= e <= 2794 ->
  cal_valid (derive_cal_val e w) = true <->
  0 <= THS_H6_CAL_DEFAULT - (e - to_s16 w) < 4096.
Proof.
  intros He. rewrite cal_valid_range.
  unfold derive_cal_val, THS_H6_CAL_DEFAULT.
  pose proof (to_s16_range w) as Hs.
  rewrite (to_s16_wrap (e - to_s16 w)) by lia.
  destruct (Z.ltb_spec (e - to_s16 w) (- 2 ^ 15));
    [| destruct (Z.ltb_spec (e - to_s16 w) (2 ^ 15))];
    rewrite to_s16_wrap by lia;
    repeat match goal with
           | |- context [?a <? ?b] => destruct (Z.ltb_spec a b)
           end; lia.
Qed.

Lemma nvmem_cell_read_data m bytes :
  calcell (m_data m) = CellData bytes ->
  nvmem_cell_read m = Some (CellData bytes, log m EvNvmemRead).
Proof.
  intros H. unfold nvmem_cell_read, bind, get_data. rewrite H. reflexivity.
Qed.

Lemma calibrate_body_run caldata e i w m :
  caldata_word caldata (1 + i) = Some w ->
  calibrate_body caldata e i m = Some (tt, calibrate_step e w i m).
Proof.
  intros Hw. unfold calibrate_body, calibrate_step, bind, lift.
  rewrite Hw. fold (cal_valid (derive_cal_val e w)).
  destruct (cal_valid (derive_cal_val e w)); cbn [negb]; [| reflexivity].
  destruct (Z.rem i 2 =? 0); cbn [negb]; [reflexivity |].
  rewrite readl_run, writel_run. unfold log. cbn [m_data m_regs m_trace].
  rewrite <- app_assoc. reflexivity.
Qed.

(** The whole run on the two sensors of an H6. *)
Lemma calibrate_h6_run m bytes w0 w1 w2 :
  cfg (m_data m) = h6_cfg ->
  calcell (m_data m) = CellData bytes ->
  (6 <= length bytes)%nat ->
  caldata_word bytes 0 = Some w0 -> w0 <> 0 ->
  caldata_word bytes 1 = Some w1 ->
  caldata_word bytes 2 = Some w2 ->
  sun50i_h6_ths_calibrate m =
  Some (0, log (calibrate_step (ft_temp_orig_reg_of w0) w2 1
                  (calibrate_step (ft_temp_orig_reg_of w0) w1 0
                     (log m EvNvmemRead))) EvKfree).
Proof.
  intros Hcfg Hcell Hlen Hw0 Hnz Hw1 Hw2.
  unfold sun50i_h6_ths_calibrate, bind, get_data.
  rewrite (nvmem_cell_read_data _ _ Hcell), Hcfg. cbn [sensor_num h6_cfg].
  replace (to_size_t (2 + 2 * 2)) with 6 by reflexivity.
  destruct (Z.ltb_spec (Z.of_nat (length bytes)) 6); [lia |].
  unfold lift. rewrite Hw0.
  destruct (Z.eqb_spec w0 0) as [? | _]; [contradiction |].
  change (Z.to_nat 2) with 2%nat. cbn [for_loop]. cbn [Z.ltb Z.compare Z.add].
  unfold bind.
  rewrite (calibrate_body_run _ _ 0 w1) by exact Hw1.
  change (0 + 1) with 1. change (1 <? 2) with true. cbv beta iota.
  rewrite (calibrate_body_run _ _ 1 w2) by exact Hw2.
  reflexivity.
Qed.

Lemma land_shiftl_small a b n :
  0 <= n -> 0 <= a < 2 ^ n -> Z.land a (Z.shiftl b n) = 0.
Proof.
  intros Hn Ha. apply Z.bits_inj'. intros j Hj.
  rewrite Z.land_spec, Z.bits_0.
  destruct (Z_lt_le_dec j n) as [Hlt | Hge].
  - rewrite Z.shiftl_spec_low by lia. apply andb_false_r.
  - destruct (Z.eq_dec a 0) as [-> | Hnz]; [now rewrite Z.bits_0 |].
    rewrite Z.bits_above_log2; [reflexivity | lia |].
    apply Z.lt_le_trans with n; [| exact Hge].
    apply Z.log2_lt_pow2; lia.
Qed.

Lemma lor_shiftl_add a b n :
  0 <= n -> 0 <= a < 2 ^ n -> Z.lor a (Z.shiftl b n) = a + b * 2 ^ n.
Proof.
  intros Hn Ha.
  rewrite <- Z.lxor_lor by (apply land_shiftl_small; lia).
  rewrite <- Z.add_nocarry_lxor by (apply land_shiftl_small; lia).
  now rewrite Z.shiftl_mul_pow2 by lia.
Qed.

(** The register word that the odd path stores: the low half of the old
    word under the shifted value. *)
Lemma cal_word_odd old c :
  0 <= c < 4096 ->
  to_u32 (Z.lor (Z.land old 0xffff) (to_u32 (Z.shiftl c 16)))
  = old mod 65536 + c * 65536.
Proof.
  intros Hc. change 0xffff with (Z.ones 16). rewrite Z.land_ones by lia.
  change (2 ^ 16) with 65536.
  pose proof (Z.mod_pos_bound old 65536 ltac:(lia)).
  rewrite (to_u32_small (Z.shiftl c 16))
    by (rewrite Z.shiftl_mul_pow2 by lia; lia).
  rewrite lor_shiftl_add by lia.
  apply to_u32_small. lia.
Qed.

Lemma cal_field_even r :
  cal_field r 0 = reg_value r (THS_H6_CDATA 0) mod 65536.
Proof.
  unfold cal_field. change (0 / 2) with 0. change (0 mod 2 =? 0) with true.
  cbv iota. change 0xffff with (Z.ones 16). now rewrite Z.land_ones by lia.
Qed.

Lemma cal_field_odd r :
  cal_field r 1 = (reg_value r (THS_H6_CDATA 0) / 65536) mod 65536.
Proof.
  unfold cal_field. change (1 / 2) with 0. change (1 mod 2 =? 0) with false.
  cbv iota. change 0xffff with (Z.ones 16).
  now rewrite Z.land_ones, Z.shiftr_div_pow2 by lia.
Qed.

Lemma split_word lo hi :
  0 <= lo < 65536 -> 0 <= hi < 65536 ->
  (lo + hi * 65536) mod 65536 = lo /\
  ((lo + hi * 65536) / 65536) mod 65536 = hi.
Proof.
  intros Hlo Hhi. split.
  - rewrite Z.mod_add by lia. apply Z.mod_small. lia.
  - rewrite Z.div_add by lia. rewrite (Z.div_small lo) by lia.
    apply Z.mod_small. lia.
Qed.

(** Where the two calibration fields of an H6 end up.  A valid value
    lands in its field.  A skipped even sensor keeps its field.  A
    skipped odd sensor keeps its field only when the even sensor is
    skipped as well: the store of a valid even value writes the whole
    register and leaves zero in the upper half. *)
Lemma calibrate_h6_fields m bytes w0 w1 w2 :
  cfg (m_data m) = h6_cfg ->
  calcell (m_data m) = CellData bytes ->
  (6 <= length bytes)%nat ->
  caldata_word bytes 0 = Some w0 -> w0 <> 0 ->
  caldata_word bytes 1 = Some w1 ->
  caldata_word bytes 2 = Some w2 ->
  let c0 := derive_cal_val (ft_temp_orig_reg_of w0) w1 in
  let c1 := derive_cal_val (ft_temp_orig_reg_of w0) w2 in
  exists m',
    sun50i_h6_ths_calibrate m = Some (0, m') /\
    cal_field (m_regs m') 0 =
      (if cal_valid c0 then c0 else cal_field (m_regs m) 0) /\
    cal_field (m_regs m') 1 =
      (if cal_valid c1 then c1
       else if cal_valid c0 then 0 else cal_field (m_regs m) 1).
Proof.
  intros Hcfg Hcell Hlen Hw0 Hnz Hw1 Hw2 c0 c1.
  rewrite (calibrate_h6_run m bytes w0 w1 w2) by assumption.
  eexists. split; [reflexivity |].
  rewrite cal_field_even, cal_field_odd.
  unfold calibrate_step. fold c0 c1.
  change (Z.rem 0 2 =? 0) with true. change (Z.rem 1 2 =? 0) with false.
  change (Z.quot 0 2) with 0. change (Z.quot 1 2) with 0.
  cbv iota zeta.
  assert (Hoff : (THS_H6_CDATA 0 =? THS_H6_DATA_INT_STAT) = false) by reflexivity.
  destruct (cal_valid c0) eqn:V0, (cal_valid c1) eqn:V1;
    cbn [log m_regs m_data m_trace]; unfold hw_writel; rewrite ?Hoff;
    rewrite ?reg_value_insert_eq;
    try (apply cal_valid_range in V0); try (apply cal_valid_range in V1).
  - rewrite cal_word_odd by exact V1.
    rewrite (to_u32_small c0), (Z.mod_small c0) by lia.
    apply split_word; lia.
  - rewrite (to_u32_small c0) by lia.
    rewrite (Z.mod_small c0), (Z.div_small c0) by lia. split; reflexivity.
  - rewrite cal_word_odd by exact V1.
    rewrite cal_field_even.
    pose proof (Z.mod_pos_bound (reg_value (m_regs m) (THS_H6_CDATA 0)) 65536
                  ltac:(lia)).
    apply split_word; lia.
  - rewrite cal_field_even, cal_field_odd. split; reflexivity.
Qed.

(** A failing calibration has not written any register. *)
Lemma nvmem_cell_read_error m err :
  calcell (m_data m) = CellError err ->
  nvmem_cell_read m = Some (CellError err, m).
Proof.
  intros H. unfold nvmem_cell_read, bind, get_data. rewrite H. reflexivity.
Qed.

(** A failing calibration has not written any register. *)
Lemma calibrate_failure_regs m r m' :
  sun50i_h6_ths_calibrate m = Some (r, m') -> r <> 0 ->
  m_regs m' = m_regs m /\ m_data m' = m_data m.
Proof.
  intros Hrun Hr. unfold sun50i_h6_ths_calibrate, bind, get_data in Hrun.
  destruct (calcell (m_data m)) as [err | bytes] eqn:Hcell.
  - rewrite (nvmem_cell_read_error _ _ Hcell) in Hrun.
    inversion Hrun. split; reflexivity.
  - rewrite (nvmem_cell_read_data _ _ Hcell) in Hrun.
    destruct (_ <? _) in Hrun.
    + inversion Hrun. split; reflexivity.
    + unfold lift in Hrun.
      destruct (caldata_word bytes 0) as [w0 |]; [| discriminate].
      destruct (w0 =? 0).
      * inversion Hrun. split; reflexivity.
      * destruct (for_loop _ _ _ _ _ _) as [[[] m1] |]; [| discriminate].
        inversion Hrun. congruence.
Qed.



(** The loop under "Revert calibrating" for up to four sensors: one
    16-bit store of the default value to each calibration register of the
    device, in ascending order, whatever a 16-bit store does. *)
Lemma revert_loop_run hw n m :
  0 <= n <= THS_H6_MAX_SENSOR_NUM ->
  for_loop (Z.to_nat n) 0 n 2
    (fun i => writew hw THS_H6_CAL_DEFAULT (THS_H6_CDATA (Z.quot i 2))) m
  = Some (tt,
          {| m_data := m_data m;
             m_regs := fold_left (fun rg off => hw rg THS_H6_CAL_DEFAULT off)
                                 (revert_stores n) (m_regs m);
             m_trace := m_trace m
                        ++ map (EvWritew THS_H6_CAL_DEFAULT) (revert_stores n) |}).
Proof.
  unfold THS_H6_MAX_SENSOR_NUM. intros Hn. destruct m as [d rg tr].
  assert (n = 0 \/ n = 1 \/ n = 2 \/ n = 3 \/ n = 4) as Hcase by lia.
  destruct Hcase as [-> | [-> | [-> | [-> | ->]]]];
    match goal with
    | |- context [Z.to_nat ?a] =>
        let v := eval vm_compute in (Z.to_nat a) in
        change (Z.to_nat a) with v
    end;
    cbn [for_loop]; unfold bind, ret;
    repeat (match goal with
            | |- context [?a <? ?b] =>
                let v := eval vm_compute in (a <? b) in
                change (a <? b) with v; cbv iota; cbv beta;
                rewrite ?writew_run; cbn [m_data m_regs m_trace]
            end);
    unfold revert_stores;
    repeat (match goal with
            | |- context [seqZ 0 ?a] =>
                let v := eval vm_compute in (seqZ 0 a) in
                change (seqZ 0 a) with v
            end);
    cbn [map fold_left];
    rewrite <- ?app_assoc, ?app_nil_r; reflexivity.
Qed.

(** A failed calibration inside probe: the step returns the error of the
    calibration after the stores of the revert loop, which act on the
    registers as the calibration found them. *)
Lemma probe_calibrate_failure_run hw m r m1 :
  0 <= sensor_num (cfg (m_data m)) <= THS_H6_MAX_SENSOR_NUM ->
  sun50i_h6_ths_calibrate m = Some (r, m1) -> r <> 0 ->
  m_regs m1 = m_regs m /\ m_data m1 = m_data m /\
  sun50i_h6_ths_probe_calibrate hw m
  = Some (r,
          {| m_data := m_data m;
             m_regs := fold_left (fun rg off => hw rg THS_H6_CAL_DEFAULT off)
                         (revert_stores (sensor_num (cfg (m_data m))))
                         (m_regs m);
             m_trace := m_trace m1
                        ++ map (EvWritew THS_H6_CAL_DEFAULT)
                             (revert_stores (sensor_num (cfg (m_data m)))) |}).
Proof.
  intros Hn Hcal Hr.
  destruct (calibrate_failure_regs m r m1 Hcal Hr) as [Hregs Hdata].
  split; [exact Hregs |]. split; [exact Hdata |].
  unfold sun50i_h6_ths_probe_calibrate, bind. rewrite Hcal.
  destruct (Z.eqb_spec r 0) as [-> | _]; [contradiction |]. cbn [negb].
  unfold get_data. rewrite Hdata.
  rewrite (revert_loop_run hw _ m1 Hn). unfold ret.
  now rewrite Hregs, Hdata.
Qed.

End Calibration.



(** ** Calibration: what the code does where the specification is broken *)

(** C6 at a failing input.  H6 device, calibration register at the
    hardware default 0x08000800, fused words 0x0100 (25.6 degrees, expected
    raw 2414), 0x096e (sensor 0: derived value 0x800, valid) and 0x7fff
    (sensor 1: derived value 32401, outside 12 bits).  The calibration
    returns 0, warns about sensor 1 and writes sensor 0 with a plain 32-bit
    store, after which the calibration field of sensor 1 holds 0 and no
    longer the default 0x800. *)
Theorem calibrate_skipped_odd_sensor_clobbered :
  THS_H6_CAL_DEFAULT - (ft_temp_orig_reg_of 0x0100 - 0x096e) = 0x800 /\
  THS_H6_CAL_DEFAULT - (ft_temp_orig_reg_of 0x0100 - 0x7fff) = 32401 /\
  cal_field (m_regs (cal_machine [] 0x08000800)) 1 = 0x800 /\
  observe
    (sun50i_h6_ths_calibrate
       (cal_machine [Byte.x00; Byte.x01; Byte.x6e; Byte.x09; Byte.xff; Byte.x7f]
                    0x08000800))
  = Some {| o_ret := 0;
            o_trace := [EvNvmemRead; EvWritel 0x800 0xa0; EvWarn 1; EvKfree];
            o_cdata0 := 0x00000800;
            o_field0 := 0x800;
            o_field1 := 0 |}.
Proof. repeat split; vm_compute; reflexivity. Qed.

(** C7 at a failing input.  H6 device whose calibration register holds
    0x07f50812, fused words 0x0100, 0x0978 (sensor 0: derived value 0x80a,
    valid) and 0x8000 (sensor 1: out of range, skipped).  Only sensor 0 of
    the pair is updated, by a plain store without a preceding load, and the
    upper half of the register is 0 afterwards, not the 0x07f5 it held. *)
Theorem calibrate_even_store_drops_upper_half :
  cal_field (m_regs (cal_machine [] 0x07f50812)) 1 = 0x07f5 /\
  observe
    (sun50i_h6_ths_calibrate
       (cal_machine [Byte.x00; Byte.x01; Byte.x78; Byte.x09; Byte.x00; Byte.x80]
                    0x07f50812))
  = Some {| o_ret := 0;
            o_trace := [EvNvmemRead; EvWritel 0x80a 0xa0; EvWarn 1; EvKfree];
            o_cdata0 := 0x0000080a;
            o_field0 := 0x80a;
            o_field1 := 0 |}.
Proof. split; vm_compute; reflexivity. Qed.

(** C9 at a failing input.  H6 device whose calibration cell holds four
    bytes, fewer than the six that two sensors need.  The read succeeds and
    allocates the buffer, the calibration returns [-EINVAL], and the buffer
    has not been released: the only action of the run is the read. *)
Theorem calibrate_einval_leaks_buffer :
  observe
    (sun50i_h6_ths_calibrate
       (cal_machine [Byte.x00; Byte.x01; Byte.x6e; Byte.x09] 0x08000800))
  = Some {| o_ret := - EINVAL;
            o_trace := [EvNvmemRead];
            o_cdata0 := 0x08000800;
            o_field0 := 0x800;
            o_field1 := 0x800 |} /\
  ~ In EvKfree [EvNvmemRead].
Proof.
  split; [vm_compute; reflexivity |].
  cbn. intros [H | []]. discriminate H.
Qed.

(** * Further properties of the driver *)

(** ** Conversion formulas *)

(** X1: whatever the [u32] argument, the conversion stays between -100857 and
    187744 millidegrees: the wrapped quotient is at most 288601. *)
Theorem calc_temp_bounds (val : Z) :
  -100857 <= sun50i_h6_ths_calc_temp val <= 187744.
Proof.
  rewrite calc_temp_unfold.
  pose proof (Z.mod_pos_bound (val * 1000000) (2 ^ 32) ltac:(lia)) as Hm.
  assert (0 <= (val * 1000000) mod 2 ^ 32 / 14882) by (apply Z.div_pos; lia).
  assert ((val * 1000000) mod 2 ^ 32 / 14882 < 288602)
    by (apply Z.div_lt_upper_bound; lia).
  lia.
Qed.

(** Without wrap-around the inverse formula is the linear one. *)
Lemma recalc_reg_exact temp :
  0 <= temp <= 187744 ->
  sun50i_h6_ths_recalc_reg temp = 2794 - temp * 14882 / 1000000 /\
  0 <= sun50i_h6_ths_recalc_reg temp <= 2794.
Proof.
  intros H. unfold sun50i_h6_ths_recalc_reg.
  rewrite (to_u32_small (temp * 14882)) by lia.
  assert (0 <= temp * 14882 / 1000000 <= 2794).
  { split; [apply Z.div_pos; lia |].
    apply Z.lt_succ_r. apply Z.div_lt_upper_bound; lia. }
  rewrite to_u32_small, to_u16_small by lia. lia.
Qed.

(** X2: on temperatures from 0 to 187744 millidegrees the inverse formula is
    [2794 - floor(temp * 14882 / 1000000)], a raw value between 0 and 2794
    that does not increase when the temperature does. *)
Theorem recalc_reg_linear_decreasing (t1 t2 : Z) :
  0 <= t1 -> t1 <= t2 -> t2 <= 187744 ->
  sun50i_h6_ths_recalc_reg t1 = 2794 - t1 * 14882 / 1000000 /\
  0 <= sun50i_h6_ths_recalc_reg t2 <= sun50i_h6_ths_recalc_reg t1 /\
  sun50i_h6_ths_recalc_reg t1 <= 2794.
Proof.
  intros H0 H12 H2.
  destruct (recalc_reg_exact t1 ltac:(lia)) as [E1 B1].
  destruct (recalc_reg_exact t2 ltac:(lia)) as [E2 B2].
  split; [exact E1 |]. split; [| lia]. split; [lia |].
  rewrite E1, E2.
  assert (t1 * 14882 / 1000000 <= t2 * 14882 / 1000000)
    by (apply Z.div_le_mono; lia).
  lia.
Qed.

Lemma recalc_reg_linear_decreasing_witness :
  sun50i_h6_ths_recalc_reg 25600 = 2794 - 25600 * 14882 / 1000000 /\
  0 <= sun50i_h6_ths_recalc_reg 85000 <= sun50i_h6_ths_recalc_reg 25600 /\
  sun50i_h6_ths_recalc_reg 25600 <= 2794.
Proof. apply (recalc_reg_linear_decreasing 25600 85000); lia. Defined.

(** X3: temperature to raw value and back: for a temperature from 0 to 187744
    millidegrees the conversion of the recomputed raw value is at most 66
    millidegrees below and at most 1 millidegree above the temperature (one
    raw unit is about 67 millidegrees). *)
Theorem calc_temp_of_recalc_reg (temp : Z) :
  0 <= temp <= 187744 ->
  temp - 66 <= sun50i_h6_ths_calc_temp (sun50i_h6_ths_recalc_reg temp)
            <= temp + 1.
Proof.
  intros H.
  destruct (recalc_reg_exact temp H) as [E B].
  rewrite calc_temp_exact by (unfold calc_temp_max_exact; lia).
  rewrite E. unfold linear_formula.
  set (p := temp * 14882 / 1000000).
  assert (Hp : 1000000 * p <= temp * 14882 < 1000000 * p + 1000000).
  { subst p. pose proof (Z.mul_div_le (temp * 14882) 1000000 ltac:(lia)).
    pose proof (Z.mul_succ_div_gt (temp * 14882) 1000000 ltac:(lia)). lia. }
  set (q := (2794 - p) * 1000000 / 14882).
  assert (Hq : 14882 * q <= (2794 - p) * 1000000 < 14882 * q + 14882).
  { subst q. pose proof (Z.mul_div_le ((2794 - p) * 1000000) 14882 ltac:(lia)).
    pose proof (Z.mul_succ_div_gt ((2794 - p) * 1000000) 14882 ltac:(lia)). lia. }
  lia.
Qed.

Lemma calc_temp_of_recalc_reg_witness :
  0 <= 25600 <= 187744 /\
  25600 - 66 <= sun50i_h6_ths_calc_temp (sun50i_h6_ths_recalc_reg 25600)
             <= 25600 + 1.
Proof. split; [lia |]. apply (calc_temp_of_recalc_reg 25600). lia. Defined.

(** ** Calibration *)

Section CalibrationRun.

Lemma caldata_word_some (buf : list Byte.byte) k :
  0 <= k -> 2 * k + 2 <= Z.of_nat (length buf) ->
  exists w, caldata_word buf k = Some w.
Proof.
  intros Hk Hlen. unfold caldata_word.
  destruct (Z.leb_spec 0 k); [| lia].
  destruct (lookup_lt_is_Some_2 buf (Z.to_nat (2 * k)) ltac:(lia)) as [lo ->].
  destruct (lookup_lt_is_Some_2 buf (Z.to_nat (2 * k + 1)) ltac:(lia)) as [hi ->].
  eexists. reflexivity.
Qed.

Lemma cal_inv_refl m : cal_inv m m.
Proof.
  constructor; try reflexivity.
  exists []. split; [now rewrite app_nil_r | reflexivity].
Qed.

Lemma cal_inv_extend m0 m d r evs :
  cal_inv m0 m -> d = m_data m ->
  (forall off, off <> THS_H6_CDATA 0 -> off <> THS_H6_CDATA 1 ->
               r !! off = m_regs m !! off) ->
  forallb is_cal_access evs = true ->
  cal_inv m0 {| m_data := d; m_regs := r; m_trace := m_trace m ++ evs |}.
Proof.
  intros [Hd Hr [evs0 [Ht Hf]]] -> Hregs Hevs.
  constructor; cbn [m_data m_regs m_trace].
  - exact Hd.
  - intros off H0 H1. rewrite Hregs by assumption. now apply Hr.
  - exists (evs0 ++ evs). split.
    + rewrite Ht. now rewrite app_assoc.
    + rewrite forallb_app, Hf, Hevs. reflexivity.
Qed.

Lemma calibrate_step_inv m0 m e w i :
  0 <= i < 4 -> cal_inv m0 m -> cal_inv m0 (calibrate_step e w i m).
Proof.
  intros Hi HI. unfold calibrate_step.
  assert (Hq : Z.quot i 2 = 0 \/ Z.quot i 2 = 1).
  { assert (i = 0 \/ i = 1 \/ i = 2 \/ i = 3) as [-> | [-> | [-> | ->]]] by lia;
      vm_compute; auto. }
  assert (Hoff : forall v off,
    off <> THS_H6_CDATA 0 -> off <> THS_H6_CDATA 1 ->
    hw_writel (m_regs m) v (THS_H6_CDATA (Z.quot i 2)) !! off = m_regs m !! off).
  { intros v off H0 H1. unfold hw_writel.
    assert (THS_H6_CDATA (Z.quot i 2) <> off) by (destruct Hq as [-> | ->]; auto).
    destruct (_ =? _); now rewrite lookup_insert_ne. }
  assert (Hacc : ((THS_H6_CDATA (Z.quot i 2) =? THS_H6_CDATA 0)
                  || (THS_H6_CDATA (Z.quot i 2) =? THS_H6_CDATA 1)) = true)
    by (destruct Hq as [-> | ->]; reflexivity).
  destruct (cal_valid _); [destruct (Z.rem i 2 =? 0) |].
  - apply cal_inv_extend; auto. cbn. now rewrite Hacc.
  - apply cal_inv_extend; auto. cbn. now rewrite Hacc.
  - unfold log. apply cal_inv_extend; auto.
Qed.

End CalibrationRun.

Section CalibrationTotal.

(** The calibration never faults on a device of up to four sensors; it
    keeps the device context and every register but the calibration
    registers. *)
Lemma calibrate_total m :
  0 <= sensor_num (cfg (m_data m)) <= 4 ->
  exists r m', sun50i_h6_ths_calibrate m = Some (r, m') /\
    m_data m' = m_data m /\
    (forall off, off <> THS_H6_CDATA 0 -> off <> THS_H6_CDATA 1 ->
                 m_regs m' !! off = m_regs m !! off).
Proof.
  intros Hn. set (n := sensor_num (cfg (m_data m))) in *.
  unfold sun50i_h6_ths_calibrate, bind, get_data. fold n.
  destruct (calcell (m_data m)) as [err | bytes] eqn:Hcell.
  - rewrite (nvmem_cell_read_error _ _ Hcell). unfold ret. eauto.
  - rewrite (nvmem_cell_read_data _ _ Hcell).
    assert (Hsz : to_size_t (2 + 2 * n) = 2 + 2 * n)
      by (unfold to_size_t; apply Z.mod_small; lia).
    rewrite Hsz.
    destruct (Z.ltb_spec (Z.of_nat (length bytes)) (2 + 2 * n)) as [Hs | Hl].
    { unfold ret. eexists _, _. split; [reflexivity |]. cbn. auto. }
    destruct (caldata_word_some bytes 0 ltac:(lia) ltac:(lia)) as [w0 Hw0].
    unfold lift. rewrite Hw0.
    destruct (Z.eqb_spec w0 0) as [Hz | Hnz].
    { unfold ret. eexists _, _. split; [reflexivity |]. cbn. auto. }
    set (m1 := log m EvNvmemRead).
    destruct (for_loop_invariant
                (calibrate_body bytes (ft_temp_orig_reg_of w0)) n
                (fun _ mi => cal_inv m1 mi)) with (fuel := Z.to_nat n) (i := 0) (m := m1)
      as [m2 [Hloop HI]].
    + intros i mi Hi HI.
      destruct (caldata_word_some bytes (1 + i) ltac:(lia) ltac:(lia)) as [w Hw].
      eexists. split; [apply (calibrate_body_run _ _ _ _ _ Hw) |].
      apply calibrate_step_inv; [lia | exact HI].
    + lia.
    + lia.
    + apply cal_inv_refl.
    + rewrite Hloop. destruct HI as [Hd Hr _].
      eexists _, _. split; [reflexivity |]. cbn [log m_data m_regs]. auto.
Qed.

(** The same for the calibration step of probe, whose revert loop stores
    to the calibration registers only. *)
Lemma probe_calibrate_total m :
  0 <= sensor_num (cfg (m_data m)) <= 4 ->
  exists r m', sun50i_h6_ths_probe_calibrate hw_writew m = Some (r, m') /\
    m_data m' = m_data m /\
    (forall off, off <> THS_H6_CDATA 0 -> off <> THS_H6_CDATA 1 ->
                 m_regs m' !! off = m_regs m !! off).
Proof.
  intros Hn.
  destruct (calibrate_total m Hn) as [r [m1 [Hcal [Hd Hr]]]].
  destruct (Z.eq_dec r 0) as [-> | Hne].
  - exists 0, m1. unfold sun50i_h6_ths_probe_calibrate, bind. rewrite Hcal.
    split; [reflexivity | auto].
  - destruct (probe_calibrate_failure_run hw_writew m r m1 Hn Hcal Hne)
      as [_ [_ Hrun]].
    eexists _, _. split; [exact Hrun |]. cbn [m_data m_regs].
    split; [reflexivity |]. intros off H0 H1.
    set (n := sensor_num (cfg (m_data m))) in *.
    assert (n = 0 \/ n = 1 \/ n = 2 \/ n = 3 \/ n = 4) as Hcase by lia.
    destruct Hcase as [-> | [-> | [-> | [-> | ->]]]];
      unfold revert_stores;
      match goal with
      | |- context [seqZ 0 ?a] =>
          let v := eval vm_compute in (seqZ 0 a) in
          change (seqZ 0 a) with v
      end;
      cbn [map fold_left]; unfold hw_writew;
      rewrite ?lookup_insert_ne by congruence; reflexivity.
Qed.

End CalibrationTotal.

(** X5: a buffer that passes the checks is calibrated without fault, for any
    sensor count up to four: the function returns 0, the device context is
    as before, no register but the two calibration registers is changed,
    and the run consists of the read of the cell, warnings and accesses to
    the calibration registers, and at last the release of the buffer. *)
Theorem calibrate_success (m : machine) (bytes : list Byte.byte) (w0 : Z) :
  calcell (m_data m) = CellData bytes ->
  0 <= sensor_num (cfg (m_data m)) <= THS_H6_MAX_SENSOR_NUM ->
  2 + 2 * sensor_num (cfg (m_data m)) <= Z.of_nat (length bytes) ->
  caldata_word bytes 0 = Some w0 -> w0 <> 0 ->
  exists m' evs,
    sun50i_h6_ths_calibrate m = Some (0, m') /\
    m_data m' = m_data m /\
    (forall off, off <> THS_H6_CDATA 0 -> off <> THS_H6_CDATA 1 ->
                 m_regs m' !! off = m_regs m !! off) /\
    m_trace m' = m_trace m ++ [EvNvmemRead] ++ evs ++ [EvKfree] /\
    forallb is_cal_access evs = true.
Proof.
  unfold THS_H6_MAX_SENSOR_NUM. intros Hcell Hn Hlen Hw0 Hnz.
  set (n := sensor_num (cfg (m_data m))) in *.
  set (m1 := log m EvNvmemRead).
  destruct (for_loop_invariant
              (calibrate_body bytes (ft_temp_orig_reg_of w0)) n
              (fun _ mi => cal_inv m1 mi)) with (fuel := Z.to_nat n) (i := 0) (m := m1)
    as [m2 [Hloop HI]].
  - intros i mi Hi HI.
    destruct (caldata_word_some bytes (1 + i) ltac:(lia) ltac:(lia)) as [w Hw].
    eexists. split; [apply (calibrate_body_run _ _ _ _ _ Hw) |].
    apply calibrate_step_inv; [lia | exact HI].
  - lia.
  - lia.
  - apply cal_inv_refl.
  - destruct HI as [Hd Hr [evs [Ht Hf]]].
    exists (log m2 EvKfree), evs.
    split.
    { unfold sun50i_h6_ths_calibrate, bind, get_data.
      rewrite (nvmem_cell_read_data _ _ Hcell). fold n. fold m1.
      assert (Hsz : to_size_t (2 + 2 * n) = 2 + 2 * n)
        by (unfold to_size_t; apply Z.mod_small; lia).
      rewrite Hsz.
      destruct (Z.ltb_spec (Z.of_nat (length bytes)) (2 + 2 * n)); [lia |].
      unfold lift. rewrite Hw0.
      destruct (Z.eqb_spec w0 0); [contradiction |].
      rewrite Hloop. reflexivity. }
    cbn [log m_data m_regs m_trace].
    split; [exact Hd |]. split; [exact Hr |]. split; [| exact Hf].
    rewrite Ht. subst m1. cbn [log m_trace].
    now rewrite <- !app_assoc.
Qed.

Lemma calibrate_success_witness :
  exists m' evs,
    sun50i_h6_ths_calibrate
      (cal_machine [Byte.x00; Byte.x01; Byte.x6e; Byte.x09; Byte.x78; Byte.x09]
                   0x08000800) = Some (0, m') /\
    m_trace m' = [] ++ [EvNvmemRead] ++ evs ++ [EvKfree].
Proof.
  destruct (calibrate_success
              (cal_machine [Byte.x00; Byte.x01; Byte.x6e; Byte.x09;
                            Byte.x78; Byte.x09] 0x08000800)
              [Byte.x00; Byte.x01; Byte.x6e; Byte.x09; Byte.x78; Byte.x09]
              256 eq_refl
              ltac:(unfold THS_H6_MAX_SENSOR_NUM; cbn; lia)
              ltac:(cbn; lia) eq_refl ltac:(lia))
    as [m' [evs [Hrun [_ [_ [Htrace _]]]]]].
  exists m', evs. split; [exact Hrun | exact Htrace].
Defined.

(** X4: the range check of the calibration loop decides exactly whether the
    derived value [0x800 - (expected_raw - stored_raw)], computed without
    truncation, lies in 0 .. 4095, whatever the fused words are: the [s16]
    truncations of the code never let a value outside the range pass. *)
Theorem calibrate_range_check_exact (w0 w : Z) :
  cal_valid (derive_cal_val (ft_temp_orig_reg_of w0) w) = true <->
  0 <= THS_H6_CAL_DEFAULT - (ft_temp_orig_reg_of w0 - to_s16 w) < 4096.
Proof.
  apply cal_valid_derived_value. apply ft_temp_orig_reg_range.
Qed.

Lemma caldata_word_length (buf : list Byte.byte) k w :
  caldata_word buf k = Some w ->
  0 <= k /\ 2 * k + 2 <= Z.of_nat (length buf) /\ 0 <= w < 65536.
Proof.
  unfold caldata_word. destruct (Z.leb_spec 0 k) as [Hk | Hk]; [| discriminate].
  destruct (buf !! Z.to_nat (2 * k)) as [lo |] eqn:Elo; [| discriminate].
  destruct (buf !! Z.to_nat (2 * k + 1)) as [hi |] eqn:Ehi; [| discriminate].
  intros Hw. injection Hw as <-.
  apply lookup_lt_Some in Ehi.
  assert (Hb : forall b, 0 <= byte_val b < 256).
  { intros b. unfold byte_val. pose proof (Byte.to_N_bounded b). lia. }
  pose proof (Hb lo). pose proof (Hb hi). lia.
Qed.

Lemma word_fields (r : gmap Z Z) :
  0 <= reg_value r (THS_H6_CDATA 0) < 2 ^ 32 ->
  reg_value r (THS_H6_CDATA 0) = cal_field r 0 + cal_field r 1 * 65536.
Proof.
  intros H. rewrite cal_field_even, cal_field_odd.
  set (w := reg_value r (THS_H6_CDATA 0)) in *.
  assert (0 <= w / 65536 < 65536).
  { split; [apply Z.div_pos; lia | apply Z.div_lt_upper_bound; lia]. }
  rewrite (Z.mod_small (w / 65536)) by lia.
  pose proof (Z.div_mod w 65536 ltac:(lia)). lia.
Qed.

Lemma m_regs_log m e : m_regs (log m e) = m_regs m.
Proof. reflexivity. Qed.

Lemma calibrate_step_odd_fields e w m :
  cal_valid (derive_cal_val e w) = true ->
  cal_field (m_regs (calibrate_step e w 1 m)) 1 = derive_cal_val e w /\
  cal_field (m_regs (calibrate_step e w 1 m)) 0 = cal_field (m_regs m) 0 /\
  0 <= reg_value (m_regs (calibrate_step e w 1 m)) (THS_H6_CDATA 0) < 2 ^ 32.
Proof.
  intros Hv. rewrite !cal_field_even, cal_field_odd.
  unfold calibrate_step. rewrite Hv.
  change (Z.rem 1 2 =? 0) with false. cbv iota zeta.
  change (Z.quot 1 2) with 0. cbn [m_regs]. unfold hw_writel.
  change (THS_H6_CDATA 0 =? THS_H6_DATA_INT_STAT) with false. cbv iota.
  rewrite reg_value_insert_eq.
  apply cal_valid_range in Hv. rewrite cal_word_odd by exact Hv.
  set (old := reg_value (m_regs m) (THS_H6_CDATA 0)).
  pose proof (Z.mod_pos_bound old 65536 ltac:(lia)).
  destruct (split_word (old mod 65536) (derive_cal_val e w)) as [E0 E1];
    [lia | lia |].
  rewrite E0, E1. split; [reflexivity |]. split; [reflexivity | lia].
Qed.

Lemma calibrate_step_even_field e w m :
  cal_field (m_regs (calibrate_step e w 0 m)) 0 =
  (if cal_valid (derive_cal_val e w) then derive_cal_val e w
   else cal_field (m_regs m) 0).
Proof.
  rewrite !cal_field_even. unfold calibrate_step.
  change (Z.rem 0 2 =? 0) with true. change (Z.quot 0 2) with 0.
  cbv iota zeta.
  destruct (cal_valid (derive_cal_val e w)) eqn:Hv; [| reflexivity].
  cbn [m_regs]. unfold hw_writel.
  change (THS_H6_CDATA 0 =? THS_H6_DATA_INT_STAT) with false. cbv iota.
  rewrite reg_value_insert_eq. apply cal_valid_range in Hv.
  rewrite to_u32_small by lia. apply Z.mod_small. lia.
Qed.

(** X6: on an H6, whenever the value derived for sensor 1 is in range, the
    calibration register ends up packed: sensor 1's value in the upper 16
    bits, and in the lower 16 bits sensor 0's value if that is in range,
    the previous content of the lower half otherwise. *)
Theorem calibrate_h6_packs_pair (m : machine) (bytes : list Byte.byte)
    (w0 w1 w2 : Z) :
  cfg (m_data m) = h6_cfg ->
  calcell (m_data m) = CellData bytes ->
  caldata_word bytes 0 = Some w0 -> w0 <> 0 ->
  caldata_word bytes 1 = Some w1 ->
  caldata_word bytes 2 = Some w2 ->
  cal_valid (derive_cal_val (ft_temp_orig_reg_of w0) w2) = true ->
  exists m',
    sun50i_h6_ths_calibrate m = Some (0, m') /\
    cal_field (m_regs m') 1 = derive_cal_val (ft_temp_orig_reg_of w0) w2 /\
    cal_field (m_regs m') 0 =
      (if cal_valid (derive_cal_val (ft_temp_orig_reg_of w0) w1)
       then derive_cal_val (ft_temp_orig_reg_of w0) w1
       else cal_field (m_regs m) 0) /\
    reg_value (m_regs m') (THS_H6_CDATA 0) =
      cal_field (m_regs m') 0 + cal_field (m_regs m') 1 * 65536.
Proof.
  intros Hcfg Hcell Hw0 Hnz Hw1 Hw2 Hv.
  assert (Hlen : (6 <= length bytes)%nat).
  { pose proof (caldata_word_length _ _ _ Hw2). lia. }
  exists (log (calibrate_step (ft_temp_orig_reg_of w0) w2 1
                 (calibrate_step (ft_temp_orig_reg_of w0) w1 0
                    (log m EvNvmemRead))) EvKfree).
  split; [apply (calibrate_h6_run m bytes w0 w1 w2); assumption |].
  rewrite !m_regs_log.
  destruct (calibrate_step_odd_fields (ft_temp_orig_reg_of w0) w2
              (calibrate_step (ft_temp_orig_reg_of w0) w1 0 (log m EvNvmemRead))
              Hv) as [F1 [F0 Hrange]].
  split; [exact F1 |]. split.
  - rewrite F0, calibrate_step_even_field, m_regs_log. reflexivity.
  - apply word_fields. exact Hrange.
Qed.

Lemma calibrate_h6_packs_pair_witness :
  exists m',
    sun50i_h6_ths_calibrate
      (cal_machine [Byte.x00; Byte.x01; Byte.x6e; Byte.x09; Byte.x78; Byte.x09]
                   0x08000800) = Some (0, m') /\
    cal_field (m_regs m') 1 = derive_cal_val (ft_temp_orig_reg_of 256) 2424.
Proof.
  destruct (calibrate_h6_packs_pair
              (cal_machine [Byte.x00; Byte.x01; Byte.x6e; Byte.x09;
                            Byte.x78; Byte.x09] 0x08000800)
              [Byte.x00; Byte.x01; Byte.x6e; Byte.x09; Byte.x78; Byte.x09]
              256 2414 2424 eq_refl eq_refl eq_refl ltac:(lia) eq_refl eq_refl
              eq_refl)
    as [m' [Hrun [F1 _]]].
  exists m'. split; [exact Hrun | exact F1].
Defined.

(** X7: a calibration that returns an error has changed neither a register nor
    the device context.  Either the read of the cell failed, the error is
    the one of the read and nothing was done at all; or the buffer was
    rejected, the error is [-EINVAL] and the read is the only action. *)
Theorem calibrate_failure_writes_nothing (m m' : machine) (r : Z) :
  sun50i_h6_ths_calibrate m = Some (r, m') -> r <> 0 ->
  m_regs m' = m_regs m /\ m_data m' = m_data m /\
  ((calcell (m_data m) = CellError r /\ m_trace m' = m_trace m) \/
   (r = - EINVAL /\ m_trace m' = m_trace m ++ [EvNvmemRead] /\
    exists bytes, calcell (m_data m) = CellData bytes)).
Proof.
  intros Hrun Hr. unfold sun50i_h6_ths_calibrate, bind, get_data in Hrun.
  destruct (calcell (m_data m)) as [err | bytes] eqn:Hcell.
  - rewrite (nvmem_cell_read_error _ _ Hcell) in Hrun.
    inversion Hrun; subst. auto.
  - rewrite (nvmem_cell_read_data _ _ Hcell) in Hrun.
    assert (Hrej : forall x : Z * machine,
      Some x = Some (r, m') -> x = (- EINVAL, log m EvNvmemRead) ->
      m_regs m' = m_regs m /\ m_data m' = m_data m /\
      ((CellData bytes = CellError r /\ m_trace m' = m_trace m) \/
       (r = - EINVAL /\ m_trace m' = m_trace m ++ [EvNvmemRead] /\
        exists bytes0, CellData bytes = CellData bytes0))).
    { intros x Hx ->. inversion Hx; subst.
      split; [reflexivity |]. split; [reflexivity |]. right.
      split; [reflexivity |]. split; [reflexivity |]. now exists bytes. }
    destruct (_ <? _) in Hrun; [now apply (Hrej _ Hrun) |].
    unfold lift in Hrun.
    destruct (caldata_word bytes 0) as [w0 |]; [| discriminate].
    destruct (w0 =? 0); [now apply (Hrej _ Hrun) |].
    destruct (for_loop _ _ _ _ _ _) as [[[] m1] |]; [| discriminate].
    inversion Hrun. congruence.
Qed.

Lemma calibrate_failure_writes_nothing_witness :
  exists m',
    sun50i_h6_ths_calibrate
      (cal_machine [Byte.x00; Byte.x00; Byte.x6e; Byte.x09; Byte.x6e; Byte.x09]
                   0x08000800) = Some (- EINVAL, m') /\
    m_regs m' = m_regs (cal_machine [] 0x08000800).
Proof.
  set (M0 := cal_machine [Byte.x00; Byte.x00; Byte.x6e; Byte.x09;
                          Byte.x6e; Byte.x09] 0x08000800).
  assert (Hrun : sun50i_h6_ths_calibrate M0
                 = Some (- EINVAL, log M0 EvNvmemRead)) by reflexivity.
  eexists. split; [exact Hrun |].
  apply (calibrate_failure_writes_nothing M0 _ (- EINVAL) Hrun).
  unfold EINVAL. lia.
Defined.

(** X8: the calibration step of probe reverts exactly when the
    calibration failed, whatever a 16-bit store does to the register
    block.  For up to four sensors the step never faults, returns what
    [sun50i_h6_ths_calibrate] returned and keeps the device context.
    After a calibration that returned 0 it adds nothing to the run of the
    calibration.  After a failed one, which has changed no register, it
    makes one 16-bit store of the default 0x800 to each calibration
    register of the device, in ascending order, and nothing else. *)
Theorem probe_calibrate_reverts_iff_failed (hw : store16) (m : machine) :
  0 <= sensor_num (cfg (m_data m)) <= THS_H6_MAX_SENSOR_NUM ->
  exists r m1 m2,
    sun50i_h6_ths_calibrate m = Some (r, m1) /\
    sun50i_h6_ths_probe_calibrate hw m = Some (r, m2) /\
    m_data m2 = m_data m /\
    if r =? 0 then m2 = m1
    else
      m_regs m1 = m_regs m /\
      m_trace m2
      = m_trace m1
        ++ map (EvWritew THS_H6_CAL_DEFAULT)
               (revert_stores (sensor_num (cfg (m_data m)))) /\
      m_regs m2
      = fold_left (fun rg off => hw rg THS_H6_CAL_DEFAULT off)
                  (revert_stores (sensor_num (cfg (m_data m)))) (m_regs m).
Proof.
  intros Hn.
  destruct (calibrate_total m Hn) as [r [m1 [Hcal [Hd _]]]].
  exists r, m1.
  destruct (Z.eqb_spec r 0) as [-> | Hne].
  - exists m1. split; [exact Hcal |].
    unfold sun50i_h6_ths_probe_calibrate, bind. rewrite Hcal.
    split; [reflexivity |]. split; [exact Hd | reflexivity].
  - destruct (probe_calibrate_failure_run hw m r m1 Hn Hcal Hne)
      as [Hregs [_ Hrun]].
    eexists. split; [exact Hcal |]. split; [exact Hrun |].
    cbn [m_data m_regs m_trace]. auto.
Qed.

Lemma probe_calibrate_reverts_iff_failed_witness :
  exists m2,
    sun50i_h6_ths_probe_calibrate hw_writew
      (cal_machine [Byte.x00; Byte.x00; Byte.x6e; Byte.x09; Byte.x6e; Byte.x09]
                   0x08000800) = Some (- EINVAL, m2) /\
    m_trace m2 = [EvNvmemRead; EvWritew 0x800 0xa0].
Proof.
  set (M0 := cal_machine [Byte.x00; Byte.x00; Byte.x6e; Byte.x09;
                          Byte.x6e; Byte.x09] 0x08000800).
  assert (Hn : 0 <= sensor_num (cfg (m_data M0)) <= THS_H6_MAX_SENSOR_NUM)
    by (split; discriminate).
  destruct (probe_calibrate_reverts_iff_failed hw_writew M0 Hn)
    as [r [m1 [m2 [Hcal [Hrun [_ Hcase]]]]]].
  assert (Hcal0 : sun50i_h6_ths_calibrate M0
                  = Some (- EINVAL, log M0 EvNvmemRead)) by reflexivity.
  rewrite Hcal0 in Hcal. injection Hcal as <- <-.
  exists m2. split; [exact Hrun |].
  change (- EINVAL =? 0) with false in Hcase.
  destruct Hcase as [_ [Htr _]]. exact Htr.
Defined.

(** ** Hardware initialisation *)

Section Init.

Lemma to_u32_testbit x j :
  0 <= j -> Z.testbit (to_u32 x) j = (j <? 32) && Z.testbit x j.
Proof.
  intros Hj. unfold to_u32.
  destruct (Z.ltb_spec j 32).
  - now rewrite Z.mod_pow2_bits_low by lia.
  - now rewrite Z.mod_pow2_bits_high by lia.
Qed.

(** Bit [j] of the mask that an enable loop builds. *)
Lemma or_loop_testbit fuel i n v j :
  0 <= i -> n <= 32 -> (Z.to_nat (n - i) <= fuel)%nat -> 0 <= j ->
  to_u32 v = v ->
  Z.testbit (or_loop fuel i n (fun k => BIT (0 + k)) v) j
  = Z.testbit v j || ((i <=? j) && (j <? n)).
Proof.
  revert i v. induction fuel as [| fuel IH]; intros i v Hi Hn Hf Hj Hv.
  - cbn [or_loop].
    destruct (Z.leb_spec i j), (Z.ltb_spec j n); cbn; try lia;
      now rewrite ?orb_false_r.
  - cbn [or_loop]. destruct (Z.ltb_spec i n) as [Hlt | Hge].
    + rewrite IH; try lia.
      * rewrite to_u32_testbit, Z.lor_spec by lia.
        unfold BIT. rewrite Z.shiftl_1_l, Z.pow2_bits_eqb by lia.
        replace (0 + i) with i by lia.
        rewrite <- Hv at 2. rewrite to_u32_testbit by lia.
        destruct (Z.ltb_spec j 32), (Z.eqb_spec i j), (Z.leb_spec i j),
          (Z.leb_spec (i + 1) j), (Z.ltb_spec j n);
          cbn; rewrite ?orb_true_r, ?orb_false_r, ?andb_true_r, ?andb_false_r;
          try reflexivity; lia.
      * unfold to_u32. now rewrite Z.mod_mod by lia.
    + destruct (Z.leb_spec i j), (Z.ltb_spec j n); cbn; try lia;
        now rewrite ?orb_false_r.
Qed.

Lemma or_loop_ones n :
  0 <= n <= 32 ->
  or_loop (Z.to_nat n) 0 n (fun k => BIT (0 + k)) 0 = Z.ones n.
Proof.
  intros Hn. apply Z.bits_inj'. intros j Hj.
  rewrite or_loop_testbit by (try reflexivity; lia).
  rewrite Z.bits_0. cbn [orb].
  destruct (Z.leb_spec 0 j); [| lia]. cbn [andb].
  destruct (Z.ltb_spec j n).
  - now rewrite Z.ones_spec_low by lia.
  - now rewrite Z.ones_spec_high by lia.
Qed.

Lemma ones_u32 n : 0 <= n <= 32 -> to_u32 (Z.ones n) = Z.ones n.
Proof.
  intros Hn. apply to_u32_small. rewrite Z.ones_equiv.
  assert (0 < 2 ^ n) by (apply Z.pow_pos_nonneg; lia).
  assert (2 ^ n <= 2 ^ 32) by (apply Z.pow_le_mono_r; lia).
  lia.
Qed.

Lemma init_run m :
  0 <= sensor_num (cfg (m_data m)) <= 32 ->
  sun50i_h6_ths_init m =
  Some (tt, {| m_data := m_data m;
               m_regs := init_regs (sensor_num (cfg (m_data m))) (m_regs m);
               m_trace := m_trace m ++
                 [EvWritel 0x01df002f THS_H6_CTRL0;
                  EvWritel 6 THS_H6_FILTER;
                  EvWritel (Z.ones (sensor_num (cfg (m_data m)))) THS_H6_CTRL2;
                  EvWritel 0x48000 THS_H6_PER;
                  EvWritel (Z.ones (sensor_num (cfg (m_data m))))
                           THS_H6_DATA_INT_CTRL] |}).
Proof.
  intros Hn. unfold sun50i_h6_ths_init, bind, get_data.
  unfold THS_H6_CTRL2_SENSE_EN, THS_H6_INT_CTRL_DATA_IRQ_EN.
  rewrite !or_loop_ones by exact Hn.
  rewrite !writel_run. cbn [m_data m_regs m_trace].
  unfold hw_writel.
  change (THS_H6_CTRL0 =? THS_H6_DATA_INT_STAT) with false.
  change (THS_H6_FILTER =? THS_H6_DATA_INT_STAT) with false.
  change (THS_H6_CTRL2 =? THS_H6_DATA_INT_STAT) with false.
  change (THS_H6_PER =? THS_H6_DATA_INT_STAT) with false.
  change (THS_H6_DATA_INT_CTRL =? THS_H6_DATA_INT_STAT) with false.
  cbv iota. rewrite !ones_u32 by exact Hn.
  unfold init_regs. rewrite <- !app_assoc. reflexivity.
Qed.

Lemma init_regs_idem n r : init_regs n (init_regs n r) = init_regs n r.
Proof.
  apply map_eq. intros k. unfold init_regs.
  rewrite !lookup_insert. repeat case_decide; reflexivity.
Qed.

Lemma init_regs_other n r off :
  off <> THS_H6_CTRL0 -> off <> THS_H6_FILTER -> off <> THS_H6_CTRL2 ->
  off <> THS_H6_PER -> off <> THS_H6_DATA_INT_CTRL ->
  init_regs n r !! off = r !! off.
Proof.
  intros. unfold init_regs.
  now rewrite !lookup_insert_ne by congruence.
Qed.

End Init.

(** X9: the configuration that [sun50i_h6_ths_init] leaves in the register
    block, for a device of up to four sensors: acquisition time 0x1df with
    the low bits 0x2f in CTRL0, the filter enabled with type 2, a period
    value of 72 in bits 12 and up of PER, and in CTRL2 and in the interrupt
    control register exactly the bits of the sensors below [sensor_num].
    All other registers, among them the interrupt status, the calibration
    and the data registers, and the device context are left alone. *)
Theorem init_configures (m : machine) :
  0 <= sensor_num (cfg (m_data m)) <= THS_H6_MAX_SENSOR_NUM ->
  exists m',
    sun50i_h6_ths_init m = Some (tt, m') /\
    m_data m' = m_data m /\
    reg_value (m_regs m') THS_H6_CTRL0 = Z.lor (Z.shiftl 0x1df 16) 0x2f /\
    reg_value (m_regs m') THS_H6_FILTER = 6 /\
    reg_value (m_regs m') THS_H6_PER = Z.shiftl 72 12 /\
    (forall i, 0 <= i ->
       Z.testbit (reg_value (m_regs m') THS_H6_CTRL2) i
       = (i <? sensor_num (cfg (m_data m))) /\
       Z.testbit (reg_value (m_regs m') THS_H6_DATA_INT_CTRL) i
       = (i <? sensor_num (cfg (m_data m)))) /\
    (forall off,
       off <> THS_H6_CTRL0 -> off <> THS_H6_FILTER -> off <> THS_H6_CTRL2 ->
       off <> THS_H6_PER -> off <> THS_H6_DATA_INT_CTRL ->
       m_regs m' !! off = m_regs m !! off).
Proof.
  unfold THS_H6_MAX_SENSOR_NUM. intros Hn.
  rewrite init_run by lia. eexists. split; [reflexivity |].
  cbn [m_data m_regs]. split; [reflexivity |].
  split; [unfold init_regs;
          now rewrite !reg_value_insert_ne, reg_value_insert_eq by discriminate |].
  split; [unfold init_regs;
          now rewrite !reg_value_insert_ne, reg_value_insert_eq by discriminate |].
  split; [unfold init_regs;
          now rewrite !reg_value_insert_ne, reg_value_insert_eq by discriminate |].
  split; [| intros; now apply init_regs_other].
  intros i Hi.
  assert (Hones : Z.testbit (Z.ones (sensor_num (cfg (m_data m)))) i
                  = (i <? sensor_num (cfg (m_data m)))).
  { destruct (Z.ltb_spec i (sensor_num (cfg (m_data m)))).
    - now rewrite Z.ones_spec_low by lia.
    - now rewrite Z.ones_spec_high by lia. }
  split; [| unfold init_regs; now rewrite reg_value_insert_eq].
  unfold init_regs.
  rewrite reg_value_insert_ne by discriminate.
  rewrite reg_value_insert_ne by discriminate.
  now rewrite reg_value_insert_eq.
Qed.

Lemma init_configures_witness :
  exists m',
    sun50i_h6_ths_init demo_machine = Some (tt, m') /\
    reg_value (m_regs m') THS_H6_CTRL2 = 3.
Proof.
  destruct (init_configures demo_machine) as [m' [Hrun [_ [_ [_ [_ [Hbits _]]]]]]].
  - unfold THS_H6_MAX_SENSOR_NUM. cbn. lia.
  - exists m'. split; [exact Hrun |].
    apply Z.bits_inj'. intros i Hi.
    rewrite (proj1 (Hbits i Hi)). cbn [demo_machine boot m_data cfg h6_cfg sensor_num].
    change 3 with (Z.ones 2).
    destruct (Z.ltb_spec i 2).
    + now rewrite Z.ones_spec_low by lia.
    + now rewrite Z.ones_spec_high by lia.
Defined.

(** X10: running the initialisation again changes nothing in the register
    block: it rewrites the same fixed configuration. *)
Theorem init_idempotent (m : machine) :
  0 <= sensor_num (cfg (m_data m)) <= THS_H6_MAX_SENSOR_NUM ->
  exists m1 m2,
    sun50i_h6_ths_init m = Some (tt, m1) /\
    sun50i_h6_ths_init m1 = Some (tt, m2) /\
    m_regs m2 = m_regs m1 /\ m_data m2 = m_data m.
Proof.
  unfold THS_H6_MAX_SENSOR_NUM. intros Hn.
  eexists _, _. split; [apply init_run; lia |].
  split; [apply init_run; cbn [m_data]; lia |].
  cbn [m_data m_regs]. split; [apply init_regs_idem | reflexivity].
Qed.

Lemma init_idempotent_witness :
  exists m1 m2,
    sun50i_h6_ths_init demo_machine = Some (tt, m1) /\
    sun50i_h6_ths_init m1 = Some (tt, m2) /\
    m_regs m2 = m_regs m1 /\ m_data m2 = m_data demo_machine.
Proof.
  apply (init_idempotent demo_machine).
  unfold THS_H6_MAX_SENSOR_NUM. cbn. lia.
Defined.

(** ** Interrupt handler and temperature query *)

Section IrqRuns.

(** Every run of the handler on a well-formed device ends, in a state
    related to the entry state by the loop invariant. *)
Lemma irq_thread_run m irq :
  wf_machine m ->
  exists m', sun50i_h6_ths_irq_thread irq m = Some (IRQ_HANDLED, m') /\
             irq_inv m (sensor_num (cfg (m_data m))) m'.
Proof.
  intros Hwf. pose proof Hwf as [Hn Hlen].
  set (n := sensor_num (cfg (m_data m))) in *.
  destruct (for_loop_invariant irq_thread_body n (irq_inv m)
              (fun i mi Hi HI => irq_thread_body_step m i mi Hwf Hi HI)
              (Z.to_nat n) 0 m ltac:(lia) ltac:(lia) (irq_inv_init m))
    as [m' [Hrun HI]].
  exists m'. split; [| exact HI].
  unfold sun50i_h6_ths_irq_thread, bind, get_data. fold n. rewrite Hrun.
  reflexivity.
Qed.

(** With no sensor pending the handler only reads the status register,
    once per sensor. *)
Lemma irq_thread_idle m irq :
  0 <= sensor_num (cfg (m_data m)) ->
  (forall j, 0 <= j < sensor_num (cfg (m_data m)) ->
             irq_pending (m_regs m) j = false) ->
  sun50i_h6_ths_irq_thread irq m =
  Some (IRQ_HANDLED,
        {| m_data := m_data m; m_regs := m_regs m;
           m_trace := m_trace m ++
             replicate (Z.to_nat (sensor_num (cfg (m_data m))))
                       (EvReadl THS_H6_DATA_INT_STAT) |}).
Proof.
  intros Hn Hidle. set (n := sensor_num (cfg (m_data m))) in *.
  destruct (for_loop_invariant irq_thread_body n
              (fun i mi => mi = {| m_data := m_data m; m_regs := m_regs m;
                                   m_trace := m_trace m ++
                                     replicate (Z.to_nat i)
                                               (EvReadl THS_H6_DATA_INT_STAT) |}))
    with (fuel := Z.to_nat n) (i := 0) (m := m) as [m' [Hrun ->]].
  - intros i mi Hi ->. eexists. split.
    + unfold irq_thread_body, bind. rewrite readl_run.
      cbn [m_regs]. unfold THS_H6_STAT_DATA_IRQ_STS.
      replace (0 + i) with i by lia. rewrite land_BIT_eqb by lia.
      fold (irq_pending (m_regs m) i). rewrite (Hidle i Hi). reflexivity.
    + unfold log. cbn [m_data m_regs m_trace]. f_equal.
      rewrite <- app_assoc. f_equal.
      replace (Z.to_nat (i + 1)) with (S (Z.to_nat i)) by lia.
      now rewrite replicate_S_end.
  - lia.
  - lia.
  - destruct m. cbn. now rewrite app_nil_r.
  - unfold sun50i_h6_ths_irq_thread, bind, get_data. fold n. rewrite Hrun.
    reflexivity.
Qed.

End IrqRuns.

(** X11: a second run of the handler right after a first finds nothing pending:
    it reads the status register once per sensor and changes neither a
    register nor a sensor entry, and notifies nobody. *)
Theorem irq_thread_second_run_idle (m : machine) (irq : Z) :
  wf_machine m ->
  exists m1,
    sun50i_h6_ths_irq_thread irq m = Some (IRQ_HANDLED, m1) /\
    sun50i_h6_ths_irq_thread irq m1 =
    Some (IRQ_HANDLED,
          {| m_data := m_data m1; m_regs := m_regs m1;
             m_trace := m_trace m1 ++
               replicate (Z.to_nat (sensor_num (cfg (m_data m))))
                         (EvReadl THS_H6_DATA_INT_STAT) |}).
Proof.
  intros Hwf. destruct (irq_thread_run m irq Hwf) as [m1 [Hrun HI]].
  exists m1. split; [exact Hrun |].
  destruct Hwf as [Hn _].
  rewrite <- (inv_cfg _ _ _ HI). apply irq_thread_idle.
  - rewrite (inv_cfg _ _ _ HI). lia.
  - intros j Hj. rewrite (inv_cfg _ _ _ HI) in Hj.
    rewrite (inv_pending _ _ _ HI j ltac:(lia)).
    destruct (Z.ltb_spec j (sensor_num (cfg (m_data m)))); [| lia].
    apply andb_false_r.
Qed.

Lemma irq_thread_second_run_idle_witness :
  wf_machine demo_machine /\
  exists m1,
    sun50i_h6_ths_irq_thread 0 demo_machine = Some (IRQ_HANDLED, m1) /\
    sun50i_h6_ths_irq_thread 0 m1 =
    Some (IRQ_HANDLED,
          {| m_data := m_data m1; m_regs := m_regs m1;
             m_trace := m_trace m1 ++ [EvReadl THS_H6_DATA_INT_STAT;
                                       EvReadl THS_H6_DATA_INT_STAT] |}).
Proof.
  assert (Hwf : wf_machine demo_machine)
    by (unfold wf_machine, THS_H6_MAX_SENSOR_NUM; simpl; split; [lia | reflexivity]).
  split; [exact Hwf |].
  exact (irq_thread_second_run_idle demo_machine 0 Hwf).
Defined.


(** X12: a temperature query after a run of the handler.  For a sensor of the
    configuration that was pending, the query sees the value the handler
    read from the data register: the conversion of that value, or [-EBUSY]
    when the value is zero, even if the sensor held a sample before.  For
    any other sensor the query sees the sample the sensor held. *)
Theorem get_temp_after_irq (m : machine) (irq i out : Z)
    (s : sun50i_h6_ths_sensor) :
  wf_machine m ->
  sensor_at (sensors (m_data m)) i = Some s ->
  exists m1,
    sun50i_h6_ths_irq_thread irq m = Some (IRQ_HANDLED, m1) /\
    sun50i_h6_ths_get_temp i out m1 =
    Some (let raw := if (i <? sensor_num (cfg (m_data m)))
                        && irq_pending (m_regs m) i
                     then reg_value (m_regs m) (THS_H6_DATA i)
                     else val s in
          if raw =? 0 then (- EBUSY, out)
          else (0, calc_temp (cfg (m_data m)) raw),
          m1).
Proof.
  intros Hwf Hs. destruct (irq_thread_run m irq Hwf) as [m1 [Hrun HI]].
  exists m1. split; [exact Hrun |].
  unfold sun50i_h6_ths_get_temp, bind, get_sensor, lift.
  rewrite (inv_sensors _ _ _ HI i s Hs).
  unfold get_data, ret. cbv zeta.
  destruct ((i <? sensor_num (cfg (m_data m))) && irq_pending (m_regs m) i);
    cbn [latch val];
    match goal with |- context [?a =? 0] => destruct (a =? 0) end;
    cbv beta iota; rewrite ?(inv_cfg _ _ _ HI); reflexivity.
Qed.

Lemma get_temp_after_irq_witness :
  wf_machine demo_machine /\
  exists m1,
    sun50i_h6_ths_irq_thread 0 demo_machine = Some (IRQ_HANDLED, m1) /\
    sun50i_h6_ths_get_temp 1 5 m1 = Some ((- EBUSY, 5), m1).
Proof.
  assert (Hwf : wf_machine demo_machine)
    by (unfold wf_machine, THS_H6_MAX_SENSOR_NUM; simpl; split; [lia | reflexivity]).
  split; [exact Hwf |].
  exact (get_temp_after_irq demo_machine 0 1 5 (mk_sensor 1 11 7) Hwf eq_refl).
Defined.

(** ** Probe and remove *)

Section ProbeFacts.

Lemma clk_held_app a b : clk_held (a ++ b) = clk_held a + clk_held b.
Proof.
  induction a as [| c a IH]; [reflexivity |].
  destruct c; cbn [app clk_held]; rewrite IH; lia.
Qed.

Lemma reset_held_app a b : reset_held (a ++ b) = reset_held a + reset_held b.
Proof.
  induction a as [| c a IH]; [reflexivity |].
  destruct c; cbn [app reset_held]; rewrite IH; lia.
Qed.

Lemma zones_inv_refl ps : zones_inv ps ps.
Proof.
  constructor; try reflexivity.
  - intros j s Hs. eauto.
  - exists []. now rewrite app_nil_r.
Qed.

Lemma zones_inv_trans ps1 ps2 ps3 :
  zones_inv ps1 ps2 -> zones_inv ps2 ps3 -> zones_inv ps1 ps3.
Proof.
  intros [A1 A2 A3 A4 A5 A6 A7 [n1 [A8 [A9 A10]]]]
         [B1 B2 B3 B4 B5 B6 B7 [n2 [B8 [B9 B10]]]].
  constructor; try congruence.
  - intros j s Hs. destruct (A7 j s Hs) as [s' [Hs' Hv]].
    destruct (B7 j s' Hs') as [s'' [Hs'' Hv']]. exists s''. split; congruence.
  - exists (n1 ++ n2). rewrite B8, A8, <- app_assoc, clk_held_app, reset_held_app.
    split; [reflexivity | lia].
Qed.

(** One registration: [id] and [tzd] of sensor [i] are set, a call is
    logged. *)
Lemma register_zone_step ps i z s c :
  sensor_at (sensors (m_data (ps_machine ps))) i = Some s ->
  clk_held [c] = 0 -> reset_held [c] = 0 ->
  exists ps',
    (call c ;> liftM (set_sensor_zone i z)) ps = Some (tt, ps') /\
    zones_inv ps ps' /\
    sensor_at (sensors (m_data (ps_machine ps'))) i
      = Some {| id := i; tzd := z; val := val s |} /\
    (forall j, j <> i ->
       sensor_at (sensors (m_data (ps_machine ps'))) j
       = sensor_at (sensors (m_data (ps_machine ps))) j).
Proof.
  intros Hs Hc Hr.
  assert (Hi : 0 <= i).
  { unfold sensor_at in Hs. destruct (Z.leb_spec 0 i); [assumption | discriminate]. }
  unfold pbind, call, liftM. cbn [ps_machine ps_calls ps_drvdata].
  unfold set_sensor_zone, bind, get_sensor, lift, get_data, set_data.
  rewrite Hs. eexists. split; [reflexivity |].
  cbn [ps_machine ps_calls ps_drvdata m_data m_regs m_trace sensors cfg calcell].
  split; [| split].
  - constructor;
      cbn [ps_machine ps_calls ps_drvdata m_data m_regs m_trace sensors cfg calcell];
      try reflexivity.
    + apply length_insert.
    + intros j s0 Hs0. destruct (Z.eq_dec j i) as [-> | Hne].
      * rewrite (sensor_at_insert_eq _ _ _ _ Hs). eexists. split; [reflexivity |].
        cbn. congruence.
      * rewrite sensor_at_insert_ne by lia. eauto.
    + exists [c]. auto.
  - apply (sensor_at_insert_eq _ _ _ _ Hs).
  - intros j Hne. apply sensor_at_insert_ne; lia.
Qed.

(** The registration loop. *)
Lemma register_zones_spec pf fuel i n ps :
  0 <= i <= n -> n <= Z.of_nat (length (sensors (m_data (ps_machine ps)))) ->
  (Z.to_nat (n - i) <= fuel)%nat ->
  exists res ps',
    probe_register_zones pf fuel i n ps = Some (res, ps') /\
    zones_inv ps ps' /\
    (forall j, j < i ->
       sensor_at (sensors (m_data (ps_machine ps'))) j
       = sensor_at (sensors (m_data (ps_machine ps))) j) /\
    match res with
    | None =>
        forall j, i <= j < n ->
          exists z s', pf_tz_register pf j = inr z /\
            sensor_at (sensors (m_data (ps_machine ps'))) j = Some s' /\
            id s' = j /\ tzd s' = z
    | Some e => exists j, i <= j < n /\ pf_tz_register pf j = inl e
    end.
Proof.
  revert i ps. induction fuel as [| fuel IH]; intros i ps Hi Hlen Hf.
  - assert (i = n) by lia. subst i. exists None, ps.
    split; [reflexivity |]. split; [apply zones_inv_refl |].
    split; [reflexivity |]. intros j Hj. lia.
  - cbn [probe_register_zones]. destruct (Z.ltb_spec i n) as [Hlt | Hge].
    + destruct (sensor_at_lt (sensors (m_data (ps_machine ps))) i ltac:(lia))
        as [s Hs].
      destruct (pf_tz_register pf i) as [e | z] eqn:Htz.
      * destruct (register_zone_step ps i e s (CallTzRegister i) Hs eq_refl eq_refl)
          as [ps1 [Hrun [HI [Hsi Hother]]]].
        exists (Some e).
        eexists. split.
        { unfold pbind in *. unfold call in *.
          cbn [ps_machine ps_calls ps_drvdata] in *.
          destruct (liftM (set_sensor_zone i e) _) as [[[] psx] |] eqn:El;
            [| discriminate].
          injection Hrun as ->. unfold dev_err, call, pret. reflexivity. }
        cbn [ps_machine ps_calls ps_drvdata].
        split; [| split].
        -- destruct HI as [A1 A2 A3 A4 A5 A6 A7 [n1 [A8 [A9 A10]]]].
           constructor; cbn [ps_machine ps_calls ps_drvdata]; try assumption.
           exists (n1 ++ [CallDevErr (MsgRegisterZone i e)]).
           rewrite A8, <- app_assoc, clk_held_app, reset_held_app.
           split; [reflexivity |]. cbn. lia.
        -- intros j Hj. apply Hother. lia.
        -- exists i. split; [lia | exact Htz].
      * destruct (register_zone_step ps i z s (CallTzRegister i) Hs eq_refl eq_refl)
          as [ps1 [Hrun [HI [Hsi Hother]]]].
        destruct (IH (i + 1) ps1 ltac:(lia)
                     ltac:(rewrite (zi_length _ _ HI); lia) ltac:(lia))
          as [res [ps2 [Hrun2 [HI2 [Hlow Hres]]]]].
        exists res, ps2. split.
        { unfold pbind in *. unfold call in *.
          cbn [ps_machine ps_calls ps_drvdata] in *.
          destruct (liftM (set_sensor_zone i z) _) as [[[] psx] |] eqn:El;
            [| discriminate].
          injection Hrun as ->. exact Hrun2. }
        split; [eapply zones_inv_trans; eassumption |].
        split.
        -- intros j Hj. rewrite Hlow by lia. apply Hother. lia.
        -- destruct res as [e |].
           ++ destruct Hres as [j [Hj Hje]].
              exists j. split; [lia | exact Hje].
           ++ intros j Hj. destruct (Z.eq_dec j i) as [-> | Hne].
              ** exists z. rewrite Hlow by lia. rewrite Hsi.
                 eexists. split; [exact Htz |]. split; [reflexivity |]. auto.
              ** apply Hres. lia.
    + assert (i = n) by lia. subst i. exists None, ps.
      split; [reflexivity |]. split; [apply zones_inv_refl |].
      split; [reflexivity |]. intros j Hj. lia.
Qed.

End ProbeFacts.

Section ProbeTail.

Lemma set_calcell_run c m :
  set_calcell c m =
  Some (tt, {| m_data := {| cfg := cfg (m_data m); calcell := c;
                            sensors := sensors (m_data m) |};
               m_regs := m_regs m; m_trace := m_trace m |}).
Proof. reflexivity. Qed.

Lemma err_disable_bus_run ret ps :
  err_disable_bus ret ps =
  Some (ret, {| ps_machine := ps_machine ps;
                ps_calls := ps_calls ps ++ [CallClkDisableUnprepare; CallResetAssert];
                ps_drvdata := ps_drvdata ps |}).
Proof.
  unfold err_disable_bus, err_assert_reset, pbind, call, pret.
  cbn [ps_machine ps_calls ps_drvdata]. now rewrite <- app_assoc.
Qed.

Lemma probe_tail_spec pf ps :
  platform_wf pf ->
  0 <= sensor_num (cfg (m_data (ps_machine ps))) <= 4 ->
  Z.of_nat (length (sensors (m_data (ps_machine ps)))) = 4 ->
  exists r ps',
    probe_calibrate_and_register pf ps = Some (r, ps') /\
    tail_post pf ps r ps'.
Proof.
  intros Hwf Hn Hlen.
  destruct Hwf as [_ [_ [_ [Hcellerr [Htzerr _]]]]].
  set (n := sensor_num (cfg (m_data (ps_machine ps)))) in *.
  unfold probe_calibrate_and_register, pbind at 1. unfold call at 1.
  cbn [ps_machine ps_calls ps_drvdata].
  (* the state after the lookup and the calibration step *)
  assert (Hstage : exists deferred ps1,
    (match pf_nvmem_cell_get pf with
     | inl e => liftM (set_calcell (CellError e)) ;> pret (e =? - EPROBE_DEFER)
     | inr cell => liftM (set_calcell cell) ;>
                   liftM (sun50i_h6_ths_probe_calibrate hw_writew) ;> pret false
     end)
      {| ps_machine := ps_machine ps;
         ps_calls := ps_calls ps ++ [CallNvmemCellGet];
         ps_drvdata := ps_drvdata ps |} = Some (deferred, ps1) /\
    ps_calls ps1 = ps_calls ps ++ [CallNvmemCellGet] /\
    ps_drvdata ps1 = ps_drvdata ps /\
    cfg (m_data (ps_machine ps1)) = cfg (m_data (ps_machine ps)) /\
    sensors (m_data (ps_machine ps1)) = sensors (m_data (ps_machine ps)) /\
    (forall off, off <> THS_H6_CDATA 0 -> off <> THS_H6_CDATA 1 ->
       m_regs (ps_machine ps1) !! off = m_regs (ps_machine ps) !! off) /\
    (forall e, pf_nvmem_cell_get pf = inl e ->
       m_regs (ps_machine ps1) = m_regs (ps_machine ps) /\
       deferred = (e =? - EPROBE_DEFER)) /\
    (deferred = true -> pf_nvmem_cell_get pf = inl (- EPROBE_DEFER))).
  { destruct (pf_nvmem_cell_get pf) as [e | cell] eqn:Hget.
    - unfold pbind, liftM. cbn [ps_machine ps_calls ps_drvdata].
      rewrite set_calcell_run. unfold pret.
      eexists _, _. split; [reflexivity |].
      cbn [ps_machine ps_calls ps_drvdata m_data m_regs cfg sensors].
      split; [reflexivity |]. split; [reflexivity |]. split; [reflexivity |].
      split; [reflexivity |]. split; [reflexivity |].
      split; [intros e0 He0; injection He0 as ->; auto |].
      intros Hd. apply Z.eqb_eq in Hd. now subst e.
    - unfold pbind, liftM. cbn [ps_machine ps_calls ps_drvdata].
      rewrite set_calcell_run.
      destruct (probe_calibrate_total
                  {| m_data := {| cfg := cfg (m_data (ps_machine ps));
                                  calcell := cell;
                                  sensors := sensors (m_data (ps_machine ps)) |};
                     m_regs := m_regs (ps_machine ps);
                     m_trace := m_trace (ps_machine ps) |})
        as [r0 [m1 [Hcal [Hd Hr]]]]; [exact Hn |].
      cbn [ps_machine ps_calls ps_drvdata]. rewrite Hcal. unfold pret.
      eexists _, _. split; [reflexivity |].
      cbn [ps_machine ps_calls ps_drvdata]. rewrite Hd.
      cbn [m_data m_regs cfg sensors] in *.
      split; [reflexivity |]. split; [reflexivity |]. split; [reflexivity |].
      split; [reflexivity |]. split; [exact Hr |].
      split; [intros e0 He0; discriminate He0 | intros Hdf; discriminate Hdf]. }
  destruct Hstage as [deferred [ps1 [Hrun1 [Hc1 [Hdd1 [Hcfg1 [Hsens1 [Hregs1 [Hunc1 Hdef1]]]]]]]]].
  unfold pbind at 1. rewrite Hrun1. clear Hrun1.
  destruct deferred.
  - (* deferred probe *)
    rewrite err_disable_bus_run. eexists _, _. split; [reflexivity |].
    assert (Hnz : - EPROBE_DEFER <> 0) by (unfold EPROBE_DEFER; lia).
    constructor; cbn [ps_machine ps_calls ps_drvdata].
    + exists ([CallNvmemCellGet] ++ [CallClkDisableUnprepare; CallResetAssert]).
      rewrite Hc1, <- app_assoc. split; [reflexivity |].
      split; [intros; contradiction |]. intros _.
      exists [CallNvmemCellGet]. auto.
    + destruct (Z.eqb_spec (- EPROBE_DEFER) 0); [contradiction | exact Hdd1].
    + exact Hcfg1.
    + intros j s Hs. rewrite Hsens1. eauto.
    + intros; contradiction.
    + intros; contradiction.
    + intros e He. destruct (Hunc1 e He) as [-> _]. auto.
    + intros _. left. auto.
    + intros; contradiction.
  - (* registration *)
    unfold pbind at 1. unfold liftM at 1, get_data.
    cbn [ps_machine ps_calls ps_drvdata]. rewrite Hcfg1. fold n.
    set (ps1' := {| ps_machine := ps_machine ps1; ps_calls := ps_calls ps1;
                    ps_drvdata := ps_drvdata ps1 |}).
    destruct (register_zones_spec pf (Z.to_nat n) 0 n ps1')
      as [res [ps2 [Hrun2 [HI [_ Hres]]]]];
      [lia | subst ps1'; cbn [ps_machine]; rewrite Hsens1; lia | lia |].
    unfold pbind at 1. rewrite Hrun2.
    destruct HI as [Z1 Z2 Z3 Z4 Z5 Z6 Z7 [new2 [Z8 [Z9 Z10]]]].
    subst ps1'. cbn [ps_machine ps_calls ps_drvdata] in *.
    destruct res as [e |].
    + (* a zone failed to register *)
      destruct Hres as [j [Hj Hje]].
      pose proof (Htzerr j e Hje) as He. unfold is_errno in He.
      rewrite err_disable_bus_run. eexists _, _. split; [reflexivity |].
      constructor; cbn [ps_machine ps_calls ps_drvdata].
      * exists ([CallNvmemCellGet] ++ new2 ++
                [CallClkDisableUnprepare; CallResetAssert]).
        rewrite Z8, Hc1, <- !app_assoc. split; [reflexivity |].
        split; [intros; lia |]. intros _.
        exists ([CallNvmemCellGet] ++ new2).
        rewrite <- app_assoc, clk_held_app, reset_held_app.
        split; [reflexivity |]. cbn. lia.
      * destruct (Z.eqb_spec e 0); [lia | congruence].
      * congruence.
      * intros j0 s Hs. rewrite <- Hsens1 in Hs. apply (Z7 j0 s Hs).
      * intros; lia.
      * intros; lia.
      * intros e0 He0. destruct (Hunc1 e0 He0) as [E _]. rewrite Z2, E. auto.
      * intros _. right. exists j. auto.
      * intros; lia.
    + (* all zones registered: initialise and publish *)
      unfold pbind, liftM, platform_set_drvdata, pret.
      rewrite init_run by (rewrite Z4, Hcfg1; fold n; lia).
      cbn [ps_machine ps_calls ps_drvdata m_data m_regs m_trace].
      eexists _, _. split; [reflexivity |].
      constructor; cbn [ps_machine ps_calls ps_drvdata m_data m_regs m_trace].
      * exists ([CallNvmemCellGet] ++ new2 ++ [CallSetDrvdata]).
        rewrite Z8, Hc1, <- !app_assoc. split; [reflexivity |].
        split; [| intros; contradiction]. intros _.
        rewrite !clk_held_app, !reset_held_app. cbn. lia.
      * reflexivity.
      * congruence.
      * intros j0 s Hs. rewrite <- Hsens1 in Hs. apply (Z7 j0 s Hs).
      * intros _ j Hj. apply Hres. exact Hj.
      * intros _. rewrite Z4, Hcfg1. fold n. unfold init_regs.
        split; [| now rewrite reg_value_insert_eq].
        now rewrite !reg_value_insert_ne, reg_value_insert_eq by discriminate.
      * intros e0 He0. destruct (Hunc1 e0 He0) as [E _].
        rewrite !init_regs_other by discriminate. rewrite Z2, E. auto.
      * intros; contradiction.
      * intros _ Habs. specialize (Hunc1 _ Habs). destruct Hunc1 as [_ Hd].
        rewrite Z.eqb_refl in Hd. discriminate.
Qed.

End ProbeTail.

Section ProbeSpec.

Ltac in_calls :=
  repeat match goal with
         | H : _ \/ _ |- _ => destruct H as [H | H]
         | H : False |- _ => destruct H
         | H : CallResetDeassert _ = CallResetDeassert _ |- _ =>
             injection H as H
         | H : CallClkPrepareEnable _ = CallClkPrepareEnable _ |- _ =>
             injection H as H
         | H : _ = _ |- _ => discriminate H
         end.

Ltac held :=
  cbn [clk_held reset_held];
  repeat match goal with
         | |- context [?a =? 0] => destruct (Z.eqb_spec a 0)
         end; lia.

Ltac early_exit :=
  eexists _, _; split; [reflexivity |]; left;
  constructor; cbn [ps_machine ps_calls ps_drvdata m_regs m_trace app];
  try reflexivity;
  try (unfold ENOMEM, EINVAL, is_errno in *; lia);
  try held;
  try (intros Hin; cbn [In] in Hin; in_calls; lia);
  try (intros _ Hin; cbn [In] in Hin; in_calls; lia);
  try (unfold probe_front_ok; intros Hok; decompose [and] Hok;
       first [congruence | lia]).

Lemma set_cfg_run c m :
  set_cfg c m =
  Some (tt, {| m_data := {| cfg := c; calcell := calcell (m_data m);
                            sensors := sensors (m_data m) |};
               m_regs := m_regs m; m_trace := m_trace m |}).
Proof. reflexivity. Qed.

Lemma call_bind {A} c (k : P A) ps :
  (call c ;> k) ps =
  k {| ps_machine := ps_machine ps; ps_calls := ps_calls ps ++ [c];
       ps_drvdata := ps_drvdata ps |}.
Proof. reflexivity. Qed.

Ltac step_call :=
  rewrite call_bind; cbn [ps_machine ps_calls ps_drvdata app].

Ltac step_err :=
  unfold dev_err; rewrite call_bind;
  cbn [ps_machine ps_calls ps_drvdata app]; unfold pret.

Lemma probe_spec pf m :
  platform_wf pf ->
  exists r ps,
    sun50i_h6_ths_probe pf (pboot m) = Some (r, ps) /\
    (probe_early_failure pf m r ps \/ probe_late pf m r ps).
Proof.
  intros Hwf. pose proof Hwf as [Hio [Hcg [Hrg [_ [_ Hmd]]]]].
  unfold sun50i_h6_ths_probe, pboot. step_call.
  destruct (pf_kzalloc pf) eqn:Hkz; cbn [negb]; [| unfold pret; early_exit].
  unfold pbind at 1. unfold liftM at 1, set_data.
  cbn [ps_machine ps_calls ps_drvdata]. step_call.
  destruct (pf_match_data pf) as [c |] eqn:Hmatch; [| unfold pret; early_exit].
  specialize (Hmd c eq_refl). unfold THS_H6_MAX_SENSOR_NUM in Hmd.
  unfold pbind at 1. unfold liftM at 1.
  rewrite set_cfg_run. cbv beta iota.
  cbn [ps_machine ps_calls ps_drvdata m_data m_regs m_trace zeroed_data
       cfg calcell sensors].
  step_call.
  destruct (pf_mem_resource pf) eqn:Hmem; cbn [negb]; [| step_err; early_exit].
  step_call.
  destruct (pf_ioremap pf) as [e |] eqn:Hioremap;
    [specialize (Hio e eq_refl); step_err; early_exit |].
  step_call.
  destruct (Z.ltb_spec (pf_irq pf) 0); [step_err; early_exit |].
  step_call.
  destruct (Z.eqb_spec (pf_request_irq pf) 0) as [Hrq | Hrq]; cbn [negb];
    [| unfold pret; early_exit].
  step_call.
  destruct (pf_clk_get pf) as [e |] eqn:Hclk;
    [specialize (Hcg e eq_refl); step_err; early_exit |].
  step_call.
  destruct (pf_reset_get pf) as [e |] eqn:Hreset;
    [specialize (Hrg e eq_refl); step_err; early_exit |].
  step_call.
  destruct (Z.eqb_spec (pf_reset_deassert pf) 0) as [Hrd | Hrd]; cbn [negb].
  2:{ step_err. early_exit. }
  rewrite Hrd. step_call.
  destruct (Z.eqb_spec (pf_clk_prepare_enable pf) 0) as [Hce | Hce]; cbn [negb].
  2:{ step_err. unfold err_assert_reset. step_call. unfold pret. early_exit.
      2:{ intros Hno. exfalso. apply Hno. cbn [In]. auto 12. }
      intros _.
      exists [CallKzalloc; CallGetMatchData; CallGetResource;
              CallIoremapResource; CallGetIrq;
              CallRequestThreadedIrq (pf_irq pf); CallClkGet;
              CallResetControlGet; CallResetDeassert 0;
              CallClkPrepareEnable (pf_clk_prepare_enable pf);
              CallDevErr (MsgEnableBusClk (pf_clk_prepare_enable pf))].
      reflexivity. }
  rewrite Hce.
  match goal with
  | |- exists r ps, probe_calibrate_and_register pf ?mid = _ /\ _ =>
      destruct (probe_tail_spec pf mid Hwf) as [r [ps [Hrun Hpost]]];
      [cbn; lia | reflexivity |];
      exists r, ps; split; [exact Hrun |]; right;
      exists c, mid;
      split; [first [reflexivity | exact Hmatch] |];
      split; [reflexivity |]; split; [reflexivity |];
      split; [reflexivity | exact Hpost]
  end.
Qed.

End ProbeSpec.

Ltac good_platform_wf :=
  unfold platform_wf, is_errno, THS_H6_MAX_SENSOR_NUM; cbn;
  repeat split; intros; try discriminate;
  match goal with
  | H : Some _ = Some _ |- _ => injection H as <-; cbn; lia
  end.

Section ProbeTheorems.

Lemma front_calls_held pf :
  clk_held (probe_front_calls pf) = 1 /\ reset_held (probe_front_calls pf) = 1.
Proof. split; reflexivity. Qed.

Lemma zeroed_sensor j :
  0 <= j < 4 -> sensor_at (sensors zeroed_data) j = Some (mk_sensor 0 0 0).
Proof.
  intros Hj. unfold sensor_at. destruct (Z.leb_spec 0 j); [| lia].
  assert (j = 0 \/ j = 1 \/ j = 2 \/ j = 3) as [-> | [-> | [-> | ->]]] by lia;
    reflexivity.
Qed.

End ProbeTheorems.

(** X13: probe never faults on a well-formed platform, and it returns holding
    exactly what it should: after a success the bus clock is enabled
    once, the reset line is deasserted once and the device context is
    published; after a failure every enable and deassert has been undone
    and nothing is published. *)
Theorem probe_resource_balance (pf : platform) (m : machine) :
  platform_wf pf ->
  exists r ps,
    sun50i_h6_ths_probe pf (pboot m) = Some (r, ps) /\
    (r = 0 ->
       clk_held (ps_calls ps) = 1 /\ reset_held (ps_calls ps) = 1 /\
       ps_drvdata ps = true) /\
    (r <> 0 ->
       clk_held (ps_calls ps) = 0 /\ reset_held (ps_calls ps) = 0 /\
       ps_drvdata ps = false).
Proof.
  intros Hwf. destruct (probe_spec pf m Hwf) as [r [ps [Hrun Hcase]]].
  exists r, ps. split; [exact Hrun |].
  destruct Hcase as [He | (c & mid & Hm & Hcalls & Hdd & Hmach & Hpost)].
  - destruct He. split; [intros; contradiction | auto].
  - destruct Hpost as [[new [Hnew [Hok Hfail]]] Hdrv _ _ _ _ _ _ _].
    destruct (front_calls_held pf) as [Fc Fr].
    rewrite Hnew, Hcalls, clk_held_app, reset_held_app, Fc, Fr, Hdrv, Hdd.
    split.
    + intros ->. destruct (Hok eq_refl). cbn. repeat split; lia.
    + intros Hr. destruct (Hfail Hr) as [pre [-> [Pc Pr]]].
      rewrite clk_held_app, reset_held_app, Pc, Pr.
      destruct (Z.eqb_spec r 0); [contradiction |]. cbn. repeat split; lia.
Qed.

Lemma probe_resource_balance_witness :
  platform_wf good_platform /\
  exists r ps,
    sun50i_h6_ths_probe good_platform (pboot demo_machine) = Some (r, ps) /\
    (r = 0 ->
       clk_held (ps_calls ps) = 1 /\ reset_held (ps_calls ps) = 1 /\
       ps_drvdata ps = true) /\
    (r <> 0 ->
       clk_held (ps_calls ps) = 0 /\ reset_held (ps_calls ps) = 0 /\
       ps_drvdata ps = false).
Proof.
  assert (Hwf : platform_wf good_platform) by good_platform_wf.
  split; [exact Hwf |].
  exact (probe_resource_balance good_platform demo_machine Hwf).
Defined.


(** X14: unwinding of a failed probe is in reverse order of acquisition.  If
    the bus clock had been enabled, the last two calls disable the clock
    and then assert the reset; if only the reset had been deasserted, the
    last call asserts it; if not even that, probe neither asserts the reset
    nor disables the clock. *)
Theorem probe_unwinds_in_reverse (pf : platform) (m : machine) :
  platform_wf pf ->
  exists r ps,
    sun50i_h6_ths_probe pf (pboot m) = Some (r, ps) /\
    (r <> 0 ->
       (In (CallClkPrepareEnable 0) (ps_calls ps) ->
          exists pre, ps_calls ps
                      = pre ++ [CallClkDisableUnprepare; CallResetAssert]) /\
       (In (CallResetDeassert 0) (ps_calls ps) ->
          exists pre, ps_calls ps = pre ++ [CallResetAssert]) /\
       (~ In (CallResetDeassert 0) (ps_calls ps) ->
          ~ In CallResetAssert (ps_calls ps) /\
          ~ In CallClkDisableUnprepare (ps_calls ps))).
Proof.
  intros Hwf. destruct (probe_spec pf m Hwf) as [r [ps [Hrun Hcase]]].
  exists r, ps. split; [exact Hrun |]. intros Hr.
  destruct Hcase as [He | (c & mid & Hm & Hcalls & Hdd & Hmach & Hpost)].
  - destruct He. split; [intros; contradiction |]. split; [assumption | auto].
  - destruct Hpost as [[new [Hnew [_ Hfail]]] _ _ _ _ _ _ _ _].
    destruct (Hfail Hr) as [pre [-> _]]. rewrite Hnew, Hcalls.
    split; [| split].
    + intros _. exists (probe_front_calls pf ++ pre).
      now rewrite <- app_assoc.
    + intros _. exists (probe_front_calls pf ++ pre ++ [CallClkDisableUnprepare]).
      now rewrite <- !app_assoc.
    + intros Hno. exfalso. apply Hno. apply in_or_app. left.
      unfold probe_front_calls. cbn [In]. auto 12.
Qed.

Lemma probe_unwinds_in_reverse_witness :
  platform_wf deferring_platform /\
  exists r ps,
    sun50i_h6_ths_probe deferring_platform (pboot demo_machine) = Some (r, ps) /\
    (r <> 0 ->
       (In (CallClkPrepareEnable 0) (ps_calls ps) ->
          exists pre, ps_calls ps
                      = pre ++ [CallClkDisableUnprepare; CallResetAssert]) /\
       (In (CallResetDeassert 0) (ps_calls ps) ->
          exists pre, ps_calls ps = pre ++ [CallResetAssert]) /\
       (~ In (CallResetDeassert 0) (ps_calls ps) ->
          ~ In CallResetAssert (ps_calls ps) /\
          ~ In CallClkDisableUnprepare (ps_calls ps))).
Proof.
  assert (Hwf : platform_wf deferring_platform).
  { unfold platform_wf, is_errno, THS_H6_MAX_SENSOR_NUM, EPROBE_DEFER; cbn.
    repeat split; intros; try discriminate;
      match goal with
      | H : Some _ = Some _ |- _ => injection H as <-; cbn; lia
      | H : inl _ = inl _ |- _ => injection H as <-; unfold EPROBE_DEFER; lia
      end. }
  split; [exact Hwf |].
  exact (probe_unwinds_in_reverse deferring_platform demo_machine Hwf).
Defined.


(** X15: probe makes no register access unless the bus clock has been enabled:
    when it fails before, the register block and the record of driver
    actions are as they were. *)
Theorem probe_touches_hardware_only_clocked (pf : platform) (m : machine) :
  platform_wf pf ->
  exists r ps,
    sun50i_h6_ths_probe pf (pboot m) = Some (r, ps) /\
    (~ In (CallClkPrepareEnable 0) (ps_calls ps) ->
       r <> 0 /\
       m_regs (ps_machine ps) = m_regs m /\
       m_trace (ps_machine ps) = m_trace m).
Proof.
  intros Hwf. destruct (probe_spec pf m Hwf) as [r [ps [Hrun Hcase]]].
  exists r, ps. split; [exact Hrun |]. intros Hno.
  destruct Hcase as [He | (c & mid & Hm & Hcalls & Hdd & Hmach & Hpost)].
  - destruct He. auto.
  - exfalso. apply Hno.
    destruct Hpost as [[new [Hnew _]] _ _ _ _ _ _ _ _].
    rewrite Hnew, Hcalls. apply in_or_app. left.
    unfold probe_front_calls. cbn [In]. auto 12.
Qed.

Lemma probe_touches_hardware_only_clocked_witness :
  platform_wf unclocked_platform /\
  exists r ps,
    sun50i_h6_ths_probe unclocked_platform (pboot demo_machine)
    = Some (r, ps) /\
    ~ In (CallClkPrepareEnable 0) (ps_calls ps) /\
    r <> 0 /\
    m_regs (ps_machine ps) = m_regs demo_machine /\
    m_trace (ps_machine ps) = m_trace demo_machine.
Proof.
  assert (Hwf : platform_wf unclocked_platform) by good_platform_wf.
  split; [exact Hwf |].
  destruct (probe_touches_hardware_only_clocked unclocked_platform
              demo_machine Hwf) as [r [ps [Hrun Hquiet]]].
  assert (Hcalls :
    option_map (fun x => ps_calls (snd x))
      (sun50i_h6_ths_probe unclocked_platform (pboot demo_machine))
    = Some [CallKzalloc; CallGetMatchData; CallGetResource;
            CallIoremapResource; CallGetIrq; CallRequestThreadedIrq 42;
            CallClkGet; CallResetControlGet; CallResetDeassert 0;
            CallClkPrepareEnable (- EINVAL);
            CallDevErr (MsgEnableBusClk (- EINVAL)); CallResetAssert])
    by reflexivity.
  rewrite Hrun in Hcalls. cbn [option_map snd] in Hcalls.
  injection Hcalls as Hcalls.
  assert (Hno : ~ In (CallClkPrepareEnable 0) (ps_calls ps)).
  { rewrite Hcalls. cbn [In]. intros Hin.
    repeat (destruct Hin as [Hin | Hin]; [discriminate Hin |]).
    exact Hin. }
  exists r, ps. split; [exact Hrun |]. split; [exact Hno |].
  exact (Hquiet Hno).
Defined.


(** X16: after a successful probe every sensor of the configuration is
    registered, with its index as id and the zone the framework returned,
    and holds no sample: a temperature query on it answers [-EBUSY].  The
    sensors are enabled and their data interrupts armed. *)
Theorem probe_success_state (pf : platform) (m : machine) :
  platform_wf pf ->
  exists r ps,
    sun50i_h6_ths_probe pf (pboot m) = Some (r, ps) /\
    (r = 0 ->
     exists c,
       pf_match_data pf = Some c /\
       cfg (m_data (ps_machine ps)) = c /\
       reg_value (m_regs (ps_machine ps)) THS_H6_CTRL2 = Z.ones (sensor_num c) /\
       reg_value (m_regs (ps_machine ps)) THS_H6_DATA_INT_CTRL
         = Z.ones (sensor_num c) /\
       forall j, 0 <= j < sensor_num c ->
         exists z,
           pf_tz_register pf j = inr z /\
           sensor_at (sensors (m_data (ps_machine ps))) j
             = Some {| id := j; tzd := z; val := 0 |} /\
           forall out,
             sun50i_h6_ths_get_temp j out (ps_machine ps)
             = Some ((- EBUSY, out), ps_machine ps)).
Proof.
  intros Hwf. destruct (probe_spec pf m Hwf) as [r [ps [Hrun Hcase]]].
  exists r, ps. split; [exact Hrun |]. intros Hr.
  destruct Hcase as [He | (c & mid & Hm & Hcalls & Hdd & Hmach & Hpost)].
  - destruct He. contradiction.
  - destruct Hwf as (_ & _ & _ & _ & _ & Hmd). specialize (Hmd c Hm).
    unfold THS_H6_MAX_SENSOR_NUM in Hmd.
    destruct Hpost as [_ _ Hcfg Hval Hzones Hinit _ _ _].
    rewrite Hmach in Hcfg, Hval, Hzones, Hinit.
    cbn [m_data cfg sensors] in Hcfg, Hval, Hzones, Hinit.
    destruct (Hinit Hr) as [I1 I2].
    exists c. split; [exact Hm |]. split; [exact Hcfg |].
    split; [exact I1 |]. split; [exact I2 |].
    intros j Hj.
    destruct (Hzones Hr j Hj) as [z [s' [Hz [Hs' [Hid Htz]]]]].
    destruct (Hval j _ (zeroed_sensor j ltac:(lia))) as [s'' [Hs'' Hv]].
    assert (s'' = s') by congruence. subst s''.
    assert (Es : s' = {| id := j; tzd := z; val := 0 |}).
    { destruct s'. cbn in *. congruence. }
    exists z. split; [exact Hz |]. split; [congruence |].
    intros out. unfold sun50i_h6_ths_get_temp, bind, get_sensor, lift.
    rewrite Hs', Es. reflexivity.
Qed.

Lemma probe_success_state_witness :
  platform_wf good_platform /\
  exists r ps,
    sun50i_h6_ths_probe good_platform (pboot demo_machine) = Some (r, ps) /\
    (r = 0 ->
     exists c,
       pf_match_data good_platform = Some c /\
       cfg (m_data (ps_machine ps)) = c /\
       reg_value (m_regs (ps_machine ps)) THS_H6_CTRL2 = Z.ones (sensor_num c) /\
       reg_value (m_regs (ps_machine ps)) THS_H6_DATA_INT_CTRL
         = Z.ones (sensor_num c) /\
       forall j, 0 <= j < sensor_num c ->
         exists z,
           pf_tz_register good_platform j = inr z /\
           sensor_at (sensors (m_data (ps_machine ps))) j
             = Some {| id := j; tzd := z; val := 0 |} /\
           forall out,
             sun50i_h6_ths_get_temp j out (ps_machine ps)
             = Some ((- EBUSY, out), ps_machine ps)).
Proof.
  assert (Hwf : platform_wf good_platform) by good_platform_wf.
  split; [exact Hwf |].
  exact (probe_success_state good_platform demo_machine Hwf).
Defined.

(** X17: the calibration is best effort.  On a platform where every other
    service succeeds, probe fails only when the lookup of the calibration
    cell asks for deferral, and then with [-EPROBE_DEFER]; with any other
    lookup error, and whatever a cell that was found contains, probe
    succeeds.  When the lookup fails the calibration registers are not
    written. *)
Theorem probe_calibration_best_effort (pf : platform) (m : machine) :
  platform_wf pf -> probe_front_ok pf ->
  (forall j, exists z, pf_tz_register pf j = inr z) ->
  exists r ps,
    sun50i_h6_ths_probe pf (pboot m) = Some (r, ps) /\
    (pf_nvmem_cell_get pf = inl (- EPROBE_DEFER) -> r = - EPROBE_DEFER) /\
    (pf_nvmem_cell_get pf <> inl (- EPROBE_DEFER) -> r = 0) /\
    (forall e, pf_nvmem_cell_get pf = inl e ->
       m_regs (ps_machine ps) !! THS_H6_CDATA 0 = m_regs m !! THS_H6_CDATA 0 /\
       m_regs (ps_machine ps) !! THS_H6_CDATA 1 = m_regs m !! THS_H6_CDATA 1).
Proof.
  intros Hwf Hfront Hzones.
  destruct (probe_spec pf m Hwf) as [r [ps [Hrun Hcase]]].
  exists r, ps. split; [exact Hrun |].
  destruct Hcase as [He | (c & mid & Hm & Hcalls & Hdd & Hmach & Hpost)].
  - destruct He. contradiction.
  - destruct Hpost as [_ _ _ _ _ _ Hunc Hcause Hnd].
    rewrite Hmach in Hunc, Hcause. cbn [m_regs m_data cfg] in Hunc, Hcause.
    assert (Hfail : r <> 0 ->
              r = - EPROBE_DEFER /\ pf_nvmem_cell_get pf = inl (- EPROBE_DEFER)).
    { intros Hr. destruct (Hcause Hr) as [Hd | [j [_ Hj]]]; [exact Hd |].
      destruct (Hzones j) as [z Hz]. congruence. }
    split; [| split; [| exact Hunc]].
    + intros Hdefer. destruct (Z.eq_dec r 0) as [Hr | Hr].
      * exfalso. exact (Hnd Hr Hdefer).
      * apply (Hfail Hr).
    + intros Hnot. destruct (Z.eq_dec r 0) as [Hr | Hr]; [exact Hr |].
      exfalso. apply Hnot. apply (Hfail Hr).
Qed.

Lemma probe_calibration_best_effort_witness :
  platform_wf deferring_platform /\ probe_front_ok deferring_platform /\
  exists r ps,
    sun50i_h6_ths_probe deferring_platform (pboot demo_machine) = Some (r, ps) /\
    r = - EPROBE_DEFER.
Proof.
  assert (Hwf : platform_wf deferring_platform).
  { unfold platform_wf, is_errno, THS_H6_MAX_SENSOR_NUM, EPROBE_DEFER; cbn.
    repeat split; intros; try discriminate;
      match goal with
      | H : Some _ = Some _ |- _ => injection H as <-; cbn; lia
      | H : inl _ = inl _ |- _ => injection H as <-; unfold EPROBE_DEFER; lia
      end. }
  assert (Hfront : probe_front_ok deferring_platform).
  { unfold probe_front_ok; cbn. repeat split; try reflexivity; try lia.
    discriminate. }
  split; [exact Hwf |]. split; [exact Hfront |].
  destruct (probe_calibration_best_effort deferring_platform demo_machine
              Hwf Hfront (fun j => ex_intro _ (100 + j) eq_refl))
    as [r [ps [Hrun [Hdefer _]]]].
  exists r, ps. split; [exact Hrun |]. apply Hdefer. reflexivity.
Defined.


(** X18: remove after a successful probe asserts the reset, then disables the
    bus clock, and returns 0: nothing is held any more, and the device
    state is not touched. *)
Theorem remove_after_probe (pf : platform) (m : machine) :
  platform_wf pf ->
  exists r ps,
    sun50i_h6_ths_probe pf (pboot m) = Some (r, ps) /\
    (r = 0 ->
     exists ps',
       sun50i_h6_ths_remove ps = Some (0, ps') /\
       ps_calls ps' = ps_calls ps ++ [CallResetAssert; CallClkDisableUnprepare] /\
       clk_held (ps_calls ps') = 0 /\ reset_held (ps_calls ps') = 0 /\
       ps_machine ps' = ps_machine ps).
Proof.
  intros Hwf. destruct (probe_spec pf m Hwf) as [r [ps [Hrun Hcase]]].
  exists r, ps. split; [exact Hrun |]. intros Hr.
  destruct Hcase as [He | (c & mid & Hm & Hcalls & Hdd & Hmach & Hpost)].
  - destruct He. contradiction.
  - destruct Hpost as [[new [Hnew [Hok _]]] Hdrv _ _ _ _ _ _ _].
    destruct (Hok Hr) as [Nc Nr]. destruct (front_calls_held pf) as [Fc Fr].
    subst r. cbn in Hdrv.
    unfold sun50i_h6_ths_remove. rewrite Hdrv.
    unfold pbind, call, pret. cbn [ps_machine ps_calls ps_drvdata].
    eexists. split; [reflexivity |].
    cbn [ps_machine ps_calls ps_drvdata].
    rewrite <- app_assoc. split; [reflexivity |].
    rewrite Hnew, Hcalls, !clk_held_app, !reset_held_app, Fc, Fr, Nc, Nr.
    cbn. repeat split; lia.
Qed.

Lemma remove_after_probe_witness :
  platform_wf good_platform /\
  exists r ps,
    sun50i_h6_ths_probe good_platform (pboot demo_machine) = Some (r, ps) /\
    (r = 0 ->
     exists ps',
       sun50i_h6_ths_remove ps = Some (0, ps') /\
       ps_calls ps' = ps_calls ps ++ [CallResetAssert; CallClkDisableUnprepare] /\
       clk_held (ps_calls ps') = 0 /\ reset_held (ps_calls ps') = 0 /\
       ps_machine ps' = ps_machine ps).
Proof.
  assert (Hwf : platform_wf good_platform) by good_platform_wf.
  split; [exact Hwf |].
  exact (remove_after_probe good_platform demo_machine Hwf).
Defined.
